(** * koji-containerbuild: the builder plugin, embedded and verified

    A shallow embedding of
    [koji_containerbuild/plugins/builder_containerbuild.py]
    (the two task handlers [CreateContainerTask] and [BuildContainerTask])
    together with the properties its specification states about them.

    Python dictionaries are finite maps ([gmap]); a task handler is a
    computation in a state-and-exception monad whose state holds the
    attributes of [self] and the log of the calls made to the collaborators
    (the Koji session, the OSBS client, the file system). *)

From Stdlib Require Import Ascii String.
From stdpp Require Import base strings gmap list pretty.

Open Scope string_scope.
Open Scope Z_scope.
Open Scope list_scope.

(** * Python values and exceptions *)

(** The values that travel in a subtask result. *)
Inductive value : Type :=
  | VInt (z : Z)
  | VStr (s : string)
  | VStrs (l : list string).

#[global] Instance value_eq_dec : EqDecision value.
Proof. solve_decision. Defined.

(** The exception classes the plugin raises, names, or can receive from a
    collaborator.  [Fault] stands for any other exception, for instance an
    XML-RPC fault of a failed subtask. *)
Inductive exn : Type :=
  | BuildError (msg : string)
  | ContainerError (msg : string)
  | NotImplementedError (msg : string)
  | AttributeError (msg : string)
  | TypeError (msg : string)
  | KeyError (key : string)
  | AssertionError
  | SystemExit
  | ServerExit
  | KeyboardInterrupt
  | Fault (code : Z) (msg : string).

(** [except (SystemExit, ServerExit, KeyboardInterrupt)], line 248. *)
Definition is_exit_signal (e : exn) : bool :=
  match e with
  | SystemExit | ServerExit | KeyboardInterrupt => true
  | _ => false
  end.

(** * The monad of task handlers *)

Inductive result (A : Type) : Type :=
  | Return (a : A)
  | Raise (e : exn).
Arguments Return {A} a.
Arguments Raise {A} e.

Definition M (S A : Type) : Type := S → result A * S.

Section monad.
Context {S : Type}.

Definition ret {A} (a : A) : M S A := λ s, (Return a, s).

Definition raise {A} (e : exn) : M S A := λ s, (Raise e, s).

Definition bind {A B} (m : M S A) (k : A → M S B) : M S B :=
  λ s, match m s with
       | (Return a, s') => k a s'
       | (Raise e, s') => (Raise e, s')
       end.

(** [try: body except: handler]; the handler sees the exception raised and
    the state the body left behind. *)
Definition try_except {A} (body : M S A) (handler : exn → M S A) : M S A :=
  λ s, match body s with
       | (Return a, s') => (Return a, s')
       | (Raise e, s') => handler e s'
       end.

Definition get : M S S := λ s, (Return s, s).

Definition modify (f : S → S) : M S unit := λ s, (Return tt, f s).

(** [for x in l: body x] *)
Fixpoint for_each {A} (l : list A) (body : A → M S unit) : M S unit :=
  match l with
  | [] => ret tt
  | x :: l' => bind (body x) (λ _, for_each l' body)
  end.
End monad.

Notation "'let*' x := m 'in' k" := (bind m (λ x, k))
  (at level 10, x name, m at level 100, k at level 200).
Notation "'run' m 'in' k" := (bind m (λ _, k))
  (at level 10, m at level 100, k at level 200).

(** * Library functions the plugin uses *)

(** [str.split()] without argument: the maximal runs of non-whitespace
    characters (tab, newline, vertical tab, form feed, carriage return and
    space separate). *)
Definition split (s : string) : list string := String.words s.

(** Python truth value of a string that may be [None]. *)
Definition truthy (s : option string) : bool :=
  match s with
  | None | Some EmptyString => false
  | Some _ => true
  end.

(** [str(n)] of an integer. *)
Definition str (n : Z) : string := pretty n.

Fixpoint ends_with (suffix s : string) : bool :=
  if String.eqb s suffix then true
  else match s with
       | EmptyString => false
       | String _ s' => ends_with suffix s'
       end.

(** [s[:-4]] *)
Definition drop_last4 (s : string) : string :=
  String.substring 0 (String.length s - 4)%nat s.

(** The text after the last ['/'] of [p], with [acc] the text read since
    the last ['/'] seen. *)
Fixpoint basename_go (acc p : string) : string :=
  match p with
  | EmptyString => acc
  | String c p' =>
      if Ascii.eqb c "/"%char then basename_go EmptyString p'
      else basename_go (acc +:+ String c EmptyString) p'
  end.

(** [os.path.basename]: [p[p.rfind('/') + 1:]]. *)
Definition basename (p : string) : string := basename_go EmptyString p.

(** [os.path.join(a, b)] of [posixpath]. *)
Definition path_join (a b : string) : string :=
  match b with
  | String "/"%char _ => b
  | _ => if bool_decide (a = EmptyString) || ends_with "/" a then a +:+ b
         else a +:+ "/" +:+ b
  end.

Arguments path_join : simpl never.

(** [s.split(sep)] for a one-character separator, as the list of the
    pieces between the separators. *)
Fixpoint split_on_go (sep : ascii) (cur s : string) : list string :=
  match s with
  | EmptyString => [cur]
  | String c s' =>
      if Ascii.eqb c sep then cur :: split_on_go sep EmptyString s'
      else split_on_go sep (cur +:+ String c EmptyString) s'
  end.
Definition split_on (sep : ascii) (s : string) : list string :=
  split_on_go sep EmptyString s.

(** [c in s] *)
Fixpoint contains_char (c : ascii) (s : string) : bool :=
  match s with
  | EmptyString => false
  | String c' s' => Ascii.eqb c' c || contains_char c s'
  end.

(** * Data exchanged with the collaborators *)

(** The entries of a build target that the plugin reads. *)
Record target_info : Type := {
  ti_name : string;
  ti_build_tag : Z;
  ti_dest_tag_name : string
}.

(** The entries of a tag's build configuration that the plugin reads;
    [bc_arches] is [None] when the tag declares no arches. *)
Record buildconfig : Type := {
  bc_name : string;
  bc_id : Z;
  bc_arches : option string
}.

(** The options of a [buildContainer] request that live code reads. *)
Record Opts : Type := {
  scratch : bool;
  arch_override : option string
}.

(** [{}] *)
Definition no_opts : Opts := {| scratch := false; arch_override := None |}.

(** What [SCM(src)] exposes of a parsed source locator. *)
Record scm_info : Type := {
  scm_scheme : string;
  scm_host : string;
  scm_repository : string;
  scm_revision : string
}.

(** The handle of an OSBS client. *)
Inductive OSBS : Type := OSBS_client.

(** The result of one subtask, a dictionary. *)
Abbreviation subtask_result := (gmap string value).

(** The calls a handler makes to its collaborators, as they are logged. *)
Inductive call : Type :=
  | GetLastEvent
  | GetBuildTarget (target : string) (event : Z)
  | GetBuildConfig (build_tag event : Z)
  | Subtask (method src : string) (target : target_info) (build_tag : Z)
            (arch label : string) (parent : Z)
  | Wait (subtasks : list Z)
  | MoveContainerToScratch (task : Z) (results : gmap string subtask_result)
  | GetTaskInfo (task : Z)
  | GetUser (owner : Z)
  | NewSCM (src : string)
  | AssertAllowed (repository allowed : string)
  | NewOSBS
  | CreateBuild (git_uri git_ref user component target arch : string)
  | WaitForBuildToFinish (build_id : string)
  | GetBuildLogs (build_id : string)
  | WriteFile (path contents : string)
  | UploadFile (path : string)
  | GetBuild (build_id : value).

Definition is_subtask (c : call) : bool :=
  match c with Subtask _ _ _ _ _ _ _ => true | _ => false end.


(** The read-only queries of the queue service. *)
Definition is_lookup (c : call) : bool :=
  match c with
  | GetLastEvent | GetBuildTarget _ _ | GetBuildConfig _ _ => true
  | _ => false
  end.

(** The collaborators: what each call answers.  Every call may raise. *)
Record Env : Type := {
  (* koji *)
  canonArch : string → string;
  is_scm_url : string → bool;
  new_SCM : string → result scm_info;
  assert_allowed : scm_info → string → result unit;
  (* the queue service *)
  getLastEvent : result Z;
  getBuildTarget : string → Z → result (option target_info);
  getBuildConfig : Z → Z → result buildconfig;
  host_subtask : string → string → target_info → Z → string → string → Z →
                 result Z;
  task_outcome : Z → result subtask_result;
  host_moveContainerToScratch : Z → gmap string subtask_result → result unit;
  getTaskInfo : Z → result Z;
  getUser : Z → result string;
  uploadFile : string → result unit;
  (* the external build service *)
  new_OSBS : result OSBS;
  create_build : string → string → string → string → string → string →
                 result string;
  wait_for_build_to_finish : string → result string;
  get_build_logs : string → result string;
  get_build_is_failed : value → result bool;
  (* the file system *)
  write_file : string → string → result unit
}.

(** The state of a running task: the attributes of [self] and the calls
    made so far, oldest first. *)
Record state (S : Type) : Type := {
  self : S;
  log : list call
}.
Arguments self {S} s.
Arguments log {S} s.

Section calls.
Context {S : Type}.

(** A call to a collaborator: it is logged, then it answers. *)
Definition call_ext {A} (c : call) (answer : result A) : M (state S) A :=
  λ s, (answer, {| self := self s; log := log s ++ [c] |}).

(** [self.name], an attribute that [__init__] does not set. *)
Definition self_attr {A} (cls name : string) (field : S → option A)
  : M (state S) A :=
  λ s, match field (self s) with
       | Some a => (Return a, s)
       | None =>
           (Raise (AttributeError
              ("'" +:+ cls +:+ "' object has no attribute '" +:+ name +:+ "'")),
            s)
       end.

Definition set_self (f : S → S) : M (state S) unit :=
  modify (λ s, {| self := f (self s); log := log s |}).
End calls.

(** [d[key]] *)
Definition getitem {S} (d : subtask_result) (key : string) : M S value :=
  match d !! key with
  | Some v => ret v
  | None => raise (KeyError key)
  end.

(** Modelled from the spec: [BaseTaskHandler.wait] of Koji's task library,
    which is not part of this repository, called with [all=True] and
    [failany=True]: "wait for all subtasks; if any subtask fails, the join
    fails immediately for the whole set", and otherwise the result is
    [{taskId: result}].  [join] scans the subtasks and stops at the first
    failed one. *)
Fixpoint join (E : Env) (subtasks : list Z) : result (gmap Z subtask_result) :=
  match subtasks with
  | [] => Return ∅
  | t :: rest =>
      match task_outcome E t with
      | Raise e => Raise e
      | Return r =>
          match join E rest with
          | Raise e => Raise e
          | Return results => Return (<[t := r]> results)
          end
      end
  end.

Definition wait {S} (E : Env) (subtasks : list Z)
  : M (state S) (gmap Z subtask_result) :=
  call_ext (Wait subtasks) (join E subtasks).

(** * [class CreateContainerTask(BaseTaskHandler)], lines 39-116 *)

Module CreateContainerTask.

(** The attributes of an instance: [id], [workdir] and
    [options.allowed_scms] come from the base class constructor, [_osbs] is
    [None] after [__init__]. *)
Record instance : Type := {
  self_id : Z;
  self_workdir : string;
  self_allowed_scms : string;
  self__osbs : option OSBS
}.

Definition set__osbs (o : OSBS) (i : instance) : instance :=
  {| self_id := self_id i; self_workdir := self_workdir i;
     self_allowed_scms := self_allowed_scms i; self__osbs := Some o |}.

Abbreviation task := (M (state instance)).

(** ** [osbs], lines 59-66: the client, built on first use *)
Definition osbs (E : Env) : task OSBS :=
  let* s := get in
  match self__osbs (self s) with
  | Some o => ret o
  | None =>
      let* o := call_ext NewOSBS (new_OSBS E) in
      run set_self (set__osbs o) in
      ret o
  end.

(** ** [_download_logs], lines 48-57 *)
Definition _download_logs (E : Env) (osbs_build_id : string)
  : task (list string) :=
  let* s := get in
  let build_log := path_join (self_workdir (self s)) "build.log" in
  run osbs E in
  let* build_log_contents :=
    call_ext (GetBuildLogs osbs_build_id) (get_build_logs E osbs_build_id) in
  run call_ext (WriteFile build_log build_log_contents)
               (write_file E build_log build_log_contents) in
  ret ["build.log"].

(** Lines 78-80. *)
Definition plain_scheme (scheme : string) : string :=
  if contains_char "+" scheme
  then default EmptyString (split_on "+" scheme !! 1%nat)
  else scheme.

(** Lines 82-86: the component of a repository path. *)
Definition component (repository : string) : string :=
  if ends_with ".git" repository then basename (drop_last4 repository)
  else basename repository.

(** ** [handler], lines 68-116 *)
Definition handler (E : Env) (src : string) (target_info : target_info)
    (build_tag : Z) (arch : string) : task subtask_result :=
  let* s := get in
  let* owner := call_ext (GetTaskInfo (self_id (self s)))
                         (getTaskInfo E (self_id (self s))) in
  let* owner_name := call_ext (GetUser owner) (getUser E owner) in
  let* scm := call_ext (NewSCM src) (new_SCM E src) in
  run call_ext (AssertAllowed (scm_repository scm) (self_allowed_scms (self s)))
               (assert_allowed E scm (self_allowed_scms (self s))) in
  let git_uri :=
    plain_scheme (scm_scheme scm) +:+ scm_host scm +:+ scm_repository scm in
  let component := component (scm_repository scm) in
  run osbs E in
  let* build_id :=
    call_ext
      (CreateBuild git_uri (scm_revision scm) owner_name component
                   (ti_name target_info) arch)
      (create_build E git_uri (scm_revision scm) owner_name component
                    (ti_name target_info) arch) in
  run osbs E in
  run call_ext (WaitForBuildToFinish build_id)
               (wait_for_build_to_finish E build_id) in
  let* logs := _download_logs E build_id in
  run for_each logs
        (λ filename,
           call_ext (UploadFile (path_join (self_workdir (self s)) filename))
                    (uploadFile E (path_join (self_workdir (self s)) filename)))
  in
  ret (<["task_id" := VInt (self_id (self s))]>
         (<["logs" := VStrs logs]>
            (<["osbs_build_id" := VStr build_id]> ∅))).

End CreateContainerTask.

(** * [class BuildContainerTask(BaseTaskHandler)], lines 119-263 *)

Module BuildContainerTask.

(** The attributes of an instance: [id] and [opts] come from the base class
    constructor, and [handler] assigns [opts] anew; [event_id] and
    [extra_information] exist once [handler] has assigned them. *)
Record instance : Type := {
  self_id : Z;
  self_opts : Opts;
  self_event_id : option Z;
  self_extra_information : option (string * Z * string)
}.

Definition set_opts (o : Opts) (i : instance) : instance :=
  {| self_id := self_id i; self_opts := o;
     self_event_id := self_event_id i;
     self_extra_information := self_extra_information i |}.

Definition set_event_id (e : Z) (i : instance) : instance :=
  {| self_id := self_id i; self_opts := self_opts i;
     self_event_id := Some e;
     self_extra_information := self_extra_information i |}.

Definition set_extra_information (x : string * Z * string) (i : instance)
  : instance :=
  {| self_id := self_id i; self_opts := self_opts i;
     self_event_id := self_event_id i;
     self_extra_information := Some x |}.

Abbreviation task := (M (state instance)).

Definition attr {A} (name : string) (field : instance → option A) : task A :=
  self_attr "BuildContainerTask" name field.

Definition unsupported : exn :=
  NotImplementedError "Non-scratch container builds support isn't finished yet".

Definition no_matching_arches : exn :=
  BuildError "No matching arches were found".

(** ** [runBuilds], lines 143-158 *)

(** The loop of lines 145-152: one [createContainer] subtask per arch,
    its identifier stored under the arch. *)
Fixpoint dispatch (E : Env) (src : string) (target : target_info)
    (build_tag : Z) (arches : list string) (subtasks : gmap string Z)
  : task (gmap string Z) :=
  match arches with
  | [] => ret subtasks
  | arch :: rest =>
      let* s := get in
      let parent := self_id (self s) in
      let* t :=
        call_ext
          (Subtask "createContainer" src target build_tag arch "container"
                   parent)
          (host_subtask E "createContainer" src target build_tag arch
                        "container" parent) in
      dispatch E src target build_tag rest (<[arch := t]> subtasks)
  end.

(** [d.values()] *)
Definition values {K V} `{Countable K} (d : gmap K V) : list V :=
  (map_to_list d).*2.

(** [d.keys()] *)
Definition keys {K V} `{Countable K} (d : gmap K V) : list K :=
  (map_to_list d).*1.

Definition runBuilds (E : Env) (src : string) (target : target_info)
    (build_tag : Z) (arches : list string) : task (gmap Z subtask_result) :=
  let* subtasks := dispatch E src target build_tag arches ∅ in
  let* results := wait E (values subtasks) in
  ret results.

(** ** [getArchList], lines 160-189 *)

(** Line 168: the canonical arches of the tag. *)
Definition tag_archlist (E : Env) (arches : string) : list string :=
  canonArch E <$> split arches.

(** Lines 170-173: the arches of the tag, then the extra ones. *)
Definition base_archlist (arches : string) (extra : option string)
  : list string :=
  split (if truthy extra then arches +:+ " " +:+ default EmptyString extra
         else arches).

(** Lines 176-180: the override replaces the list, for scratch builds. *)
Definition working_archlist (o : Opts) (arches : string)
    (extra : option string) : list string :=
  let override := arch_override o in
  if scratch o && truthy override then split (default EmptyString override)
  else base_archlist arches extra.

(** Line 185. *)
Definition keep_arch (E : Env) (tag_arches : list string) (a : string) : bool :=
  bool_decide (a = "noarch") || bool_decide (canonArch E a ∈ tag_arches).

(** The loop of lines 181-186. *)
Definition filter_arches (E : Env) (tag_arches archlist : list string)
  : gmap string Z :=
  foldl (λ archdict a,
           if keep_arch E tag_arches a then <[a := 1]> archdict else archdict)
        ∅ archlist.

Definition no_arches (b : buildconfig) : exn :=
  BuildError ("No arches for tag " +:+ bc_name b +:+ " [" +:+ str (bc_id b)
              +:+ "]").

Definition getArchList (E : Env) (build_tag : Z) (extra : option string)
  : task (list string) :=
  let* event := attr "event_id" self_event_id in
  let* buildconfig := call_ext (GetBuildConfig build_tag event)
                         (getBuildConfig E build_tag event) in
  if negb (truthy (bc_arches buildconfig)) then raise (no_arches buildconfig)
  else
    let arches := default EmptyString (bc_arches buildconfig) in
    let* s := get in
    let archdict :=
      filter_arches E (tag_archlist E arches)
                    (working_archlist (self_opts (self s)) arches extra) in
    if bool_decide (archdict = ∅) then raise no_matching_arches
    else ret (keys archdict).

(** ** [_raise_if_image_failed], lines 260-263 *)

(** [self.osbs()] on a [BuildContainerTask].  The only [osbs] of the plugin
    is the method of [CreateContainerTask] (lines 59-66).  The class
    [BuildContainerTask] derives from Koji's [BaseTaskHandler] alone, defines
    no [osbs] and assigns none, so the attribute lookup raises. *)
Definition osbs : task OSBS :=
  raise (AttributeError "'BuildContainerTask' object has no attribute 'osbs'").

Definition _raise_if_image_failed (E : Env) (osbs_build_id : value)
  : task unit :=
  run osbs in
  let* failed := call_ext (GetBuild osbs_build_id)
                    (get_build_is_failed E osbs_build_id) in
  if (failed : bool) then raise (ContainerError "Image build failed")
  else ret tt.

(** ** [handler], lines 195-258 *)

(** Lines 233-236: the results under the text of their task identifier. *)
Definition results_xmlrpc (results : gmap Z subtask_result)
  : gmap string subtask_result :=
  foldl (λ acc '(task_id, r), <[str task_id := r]> acc) ∅
        (map_to_list results).

(** The body of the [try], lines 228-247. *)
Definition handler_try (E : Env) (src target : string) (o : Opts)
    (target_info : target_info) (build_tag : Z) (archlist : list string)
  : task unit :=
  let* s := get in
  run set_self (set_extra_information (src, self_id (self s), target)) in
  if negb (is_scm_url E src)
  then raise (BuildError ("Invalid source specification: " +:+ src))
  else
    let* results := runBuilds E src target_info build_tag archlist in
    run (if scratch o
         then call_ext
                (MoveContainerToScratch (self_id (self s))
                                        (results_xmlrpc results))
                (host_moveContainerToScratch E (self_id (self s))
                                             (results_xmlrpc results))
         else raise unsupported) in
    for_each (values results)
             (λ r, let* b := getitem r "osbs_build_id" in
                   _raise_if_image_failed E b).

(** The [except] clauses, lines 248-258. *)
Definition handler_except (e : exn) : task unit :=
  if is_exit_signal e then raise e
  else
    let* s := get in
    if negb (scratch (self_opts (self s))) then raise unsupported
    else raise e.

(** Lines 201-204: the target and its arches. *)
Definition handler_resolve (E : Env) (target : string)
  : task (target_info * list string) :=
  let* event_id := call_ext GetLastEvent (getLastEvent E) in
  run set_self (set_event_id event_id) in
  let* found := call_ext (GetBuildTarget target event_id)
                         (getBuildTarget E target event_id) in
  match found with
  | None => raise (TypeError "'NoneType' object has no attribute '__getitem__'")
  | Some target_info =>
      let* archlist := getArchList E (ti_build_tag target_info) None in
      ret (target_info, archlist)
  end.

Definition handler (E : Env) (src target : string) (opts : option Opts)
  : task unit :=
  let o := default no_opts opts in
  run set_self (set_opts o) in
  let* resolved := handler_resolve E target in
  let target_info := resolved.1 in
  let* s := get in
  if negb (scratch (self_opts (self s))) then raise unsupported
  else
    try_except
      (handler_try E src target o target_info (ti_build_tag target_info)
                   resolved.2)
      handler_except.

End BuildContainerTask.

(** * A concrete environment, for the examples *)

Module Example.

(** The alias collapsing of [koji.canonArch] that the examples need. *)
Definition example_canonArch (a : string) : string :=
  if String.eqb a "ia32e" then "x86_64"
  else if String.eqb a "athlon" || String.eqb a "i686" then "i386"
  else a.

Definition t1 : target_info :=
  {| ti_name := "t1"; ti_build_tag := 10; ti_dest_tag_name := "t1-dest" |}.

(** The result of the subtask [t], whose external build is [b]. *)
Definition imgdata (t : Z) (b : string) : subtask_result :=
  <["task_id" := VInt t]>
    (<["logs" := VStrs ["build.log"]]> (<["osbs_build_id" := VStr b]> ∅)).

(** Target [t1] builds in tag 10, which declares [arches]; the subtask of an
    arch gets the identifier [ids arch] and ends as [outcome] says; the
    external build [b] has failed when [failed b]. *)
Definition env (arches : option string) (ids : string → result Z)
    (outcome : Z → result subtask_result) (failed : value → bool) : Env :=
  {| canonArch := example_canonArch;
     is_scm_url := String.prefix "git://";
     new_SCM := λ src,
       Return {| scm_scheme := "git://"; scm_host := "example.com";
                 scm_repository := "/containers/foo.git";
                 scm_revision := "master" |};
     assert_allowed := λ _ _, Return tt;
     getLastEvent := Return 7;
     getBuildTarget := λ name _,
       Return (if String.eqb name "t1" then Some t1 else None);
     getBuildConfig := λ tag _,
       Return {| bc_name := "t1-build"; bc_id := tag; bc_arches := arches |};
     host_subtask := λ _ _ _ _ arch _ _, ids arch;
     task_outcome := outcome;
     host_moveContainerToScratch := λ _ _, Return tt;
     getTaskInfo := λ _, Return 42;
     getUser := λ _, Return "alice";
     uploadFile := λ _, Return tt;
     new_OSBS := Return OSBS_client;
     create_build := λ _ _ _ component _ arch,
       Return (component +:+ "-" +:+ arch +:+ "-1");
     wait_for_build_to_finish := λ _, Return "{}";
     get_build_logs := λ _, Return "Step 1 : FROM fedora";
     get_build_is_failed := λ b, Return (failed b);
     write_file := λ _ _, Return tt |}.

Definition ids (arch : string) : result Z :=
  Return (if String.eqb arch "x86_64" then 101
          else if String.eqb arch "ppc64le" then 102 else 103).

Definition all_done (t : Z) : result subtask_result :=
  Return (imgdata t ("build-" +:+ str t)).

(** A fresh [BuildContainerTask] with identifier 1. *)
Definition start : state BuildContainerTask.instance :=
  {| self := {| BuildContainerTask.self_id := 1;
                BuildContainerTask.self_opts := no_opts;
                BuildContainerTask.self_event_id := None;
                BuildContainerTask.self_extra_information := None |};
     log := [] |}.

(** A fresh [CreateContainerTask] with identifier 101. *)
Definition start_create : state CreateContainerTask.instance :=
  {| self := {| CreateContainerTask.self_id := 101;
                CreateContainerTask.self_workdir := "/tmp/koji/tasks/101";
                CreateContainerTask.self_allowed_scms := "example.com:/*";
                CreateContainerTask.self__osbs := None |};
     log := [] |}.

(** The options of a scratch build. *)
Definition scratch_build (override : option string) : Opts :=
  {| scratch := true; arch_override := override |}.

Definition scratch_opts (override : option string) : option Opts :=
  Some (scratch_build override).

Definition git_src : string := "git://example.com/containers/foo.git#master".

(** The task once [handler] has stored the options and the event. *)
Definition resolving (o : Opts) : state BuildContainerTask.instance :=
  {| self := {| BuildContainerTask.self_id := 1;
                BuildContainerTask.self_opts := o;
                BuildContainerTask.self_event_id := Some 7;
                BuildContainerTask.self_extra_information := None |};
     log := [] |}.

(** Tag 10 declares [x86_64 ppc64le]; every subtask and every external
    build succeeds. *)
Definition E_ok : Env :=
  env (Some "x86_64 ppc64le") ids all_done (λ _, false).

(** The same, with the external build of the [ppc64le] subtask failed. *)
Definition E_ppc64le_failed : Env :=
  env (Some "x86_64 ppc64le") ids all_done
      (λ b, bool_decide (b = VStr "build-102")).


(** A tag that declares no arches. *)
Definition E_no_arches : Env := env None ids all_done (λ _, false).

(** Tag 10 declares [x86_64] alone. *)
Definition E_one : Env := env (Some "x86_64") ids all_done (λ _, false).

(** The queue service is shut down while the subtasks are dispatched. *)
Definition E_exit : Env :=
  env (Some "x86_64 ppc64le") (λ _, Raise ServerExit) all_done (λ _, false).

(** The three queries that open every run on target [t1]. *)
Definition t1_lookups : list call :=
  [GetLastEvent; GetBuildTarget "t1" 7; GetBuildConfig 10 7].

(** The dispatch of the subtask for [arch]. *)
Definition t1_subtask (arch : string) : call :=
  Subtask "createContainer" git_src t1 10 arch "container" 1.

Definition no_osbs : exn :=
  AttributeError "'BuildContainerTask' object has no attribute 'osbs'".

End Example.

(** * Definitions on the side of the specification *)

(** Following the specification's words: the final path segment, with the
    bare-repository suffix stripped when it is there. *)
Definition final_segment_stripped (repository : string) : string :=
  let segment := basename repository in
  if ends_with ".git" segment then drop_last4 segment else segment.

(** The identifiers joined on are identifiers that [subtask] answered. *)
Definition dispatched (E : Env) (src : string) (target : target_info)
    (build_tag parent : Z) (subs : list call) (ids : list Z) : Prop :=
  ∀ t, t ∈ ids →
    ∃ arch,
      Subtask "createContainer" src target build_tag arch "container" parent
        ∈ subs ∧
      host_subtask E "createContainer" src target build_tag arch "container"
                   parent = Return t.

(** * Tactics *)

Ltac unfold_monad :=
  unfold bind, ret, raise, try_except, get, modify, set_self, call_ext,
    self_attr, getitem in *.

(** * Further definitions on the side of the specification *)

(** The request for the [createContainer] subtask of [arch]. *)
Definition subtask_call (src : string) (target : target_info)
    (build_tag parent : Z) (arch : string) : call :=
  Subtask "createContainer" src target build_tag arch "container" parent.

(** * The build record of a persistent build, lines 126-141 and 191-193

    [initContainerBuild] and [getRelease] are the methods of
    [BuildContainerTask] for builds without the scratch flag.  They talk to
    the queue service alone, through three calls of their own. *)

Module BuildRecord.

Inductive call : Type :=
  | GetPackageConfig (tag name : string)
  | InitContainerBuild (task : Z) (name version release : string) (epoch : Z)
  | GetNextRelease (name version : string).

(** What [getPackageConfig] answers for a package on the list of a tag. *)
Record package_config : Type := { blocked : bool }.

(** The queue service; [getPackageConfig] answers [None] for a package that
    is not on the list of the tag. *)
Record Session : Type := {
  getPackageConfig : string → string → result (option package_config);
  host_initContainerBuild : Z → string → string → string → Z → result Z;
  getNextRelease : string → string → result string
}.

(** The options these methods read: those of the request, and
    [skip_tag]. *)
Record build_opts : Type := {
  request : Opts;
  skip_tag : bool
}.

Record state : Type := {
  self_id : Z;
  log : list call
}.

Abbreviation task := (M state).

Definition call_session {A} (c : call) (answer : result A) : task A :=
  λ s, (answer, {| self_id := self_id s; log := log s ++ [c] |}).

Definition not_listed (name tag : string) : exn :=
  BuildError ("package (container) " +:+ name +:+ " not in list for tag "
              +:+ tag).

Definition is_blocked (name tag : string) : exn :=
  BuildError ("package (container)  " +:+ name +:+ " is blocked for tag "
              +:+ tag).

Definition initContainerBuild (S : Session) (name version release : string)
    (target_info : target_info) (opts : build_opts) : task Z :=
  let tag := ti_dest_tag_name target_info in
  let* pkg_cfg := call_session (GetPackageConfig tag name)
                               (getPackageConfig S tag name) in
  run (if negb (skip_tag opts) && negb (scratch (request opts))
       then match pkg_cfg with
            | None => raise (not_listed name tag)
            | Some cfg =>
                if blocked cfg then raise (is_blocked name tag) else ret tt
            end
       else ret tt) in
  let* s := get in
  call_session (InitContainerBuild (self_id s) name version release 0)
               (host_initContainerBuild S (self_id s) name version release 0).

Definition getRelease (S : Session) (name ver : string) : task string :=
  call_session (GetNextRelease name ver) (getNextRelease S name ver).

End BuildRecord.

(** * [tests/test_cli_containerbuild.py]: the expected output, lines 101-111 *)

Module TestHelpers.

(** The scalars that a task result holds. *)
Inductive scalar : Type :=
  | SNone
  | SBool (b : bool)
  | SInt (n : Z)
  | SStr (s : string).

(** A task result: lists, dictionaries in the order of their keys (the
    tests make them [OrderedDict]s), scalars. *)
Unset Elimination Schemes.
Inductive json : Type :=
  | JList (items : list json)
  | JDict (items : list (string * json))
  | JScalar (v : scalar).
Set Elimination Schemes.

(** ['{}'.format(v)] *)
Definition format (v : scalar) : string :=
  match v with
  | SNone => "None"
  | SBool true => "True"
  | SBool false => "False"
  | SInt n => str n
  | SStr s => s
  end.

(** The line feed. *)
Definition newline : string := String "010"%char EmptyString.

(** The generator [_expected_output], as the list of the lines it yields. *)
Fixpoint _expected_output (result : json) (offset indent : string)
  : list string :=
  match result with
  | JList items =>
      flat_map (λ item, _expected_output item (offset +:+ indent) indent)
               items
  | JDict items =>
      flat_map (λ kv, (offset +:+ kv.1 +:+ ":" +:+ newline)
                      :: _expected_output kv.2 (offset +:+ indent) indent)
               items
  | JScalar v => [offset +:+ format v +:+ newline]
  end.

(** The dictionary keys and the scalars of a result. *)
Fixpoint entries (result : json) : nat :=
  match result with
  | JList items => list_sum (map entries items)
  | JDict items => list_sum (map (λ kv, S (entries kv.2)) items)
  | JScalar _ => 1
  end.

End TestHelpers.

(** * Further examples *)

Module MoreExamples.

(** A queue service whose tag lists [foo], lists and blocks [bar], and
    does not list anything else. *)
Definition session : BuildRecord.Session :=
  {| BuildRecord.getPackageConfig := λ _ name,
       Return (if String.eqb name "foo"
               then Some {| BuildRecord.blocked := false |}
               else if String.eqb name "bar"
                    then Some {| BuildRecord.blocked := true |}
                    else None);
     BuildRecord.host_initContainerBuild := λ _ _ _ _ _, Return 500;
     BuildRecord.getNextRelease := λ _ _, Return "2" |}.

(** The persistent build task 1, before any call. *)
Definition record_start : BuildRecord.state :=
  {| BuildRecord.self_id := 1; BuildRecord.log := [] |}.

Definition persistent : BuildRecord.build_opts :=
  {| BuildRecord.request := no_opts; BuildRecord.skip_tag := false |}.

(** What the queue service answers for the build tag of [t1]. *)
Definition x86_ppc : buildconfig :=
  {| bc_name := "t1-build"; bc_id := 10;
     bc_arches := Some "x86_64 ppc64le" |}.

(** A result with a list and a nested dictionary. *)
Definition build_result : TestHelpers.json :=
  TestHelpers.JDict
    [("koji_builds", TestHelpers.JList [TestHelpers.JScalar
                                          (TestHelpers.SInt 7)]);
     ("repositories",
      TestHelpers.JDict
        [("unique", TestHelpers.JList
                      [TestHelpers.JScalar (TestHelpers.SStr "r/foo:1")])])].

End MoreExamples.

(** * Further tactics *)

(** Runs [CreateContainerTask.handler] through every answer of the
    collaborators. *)
Ltac run_handler :=
  unfold CreateContainerTask.handler, CreateContainerTask._download_logs,
    CreateContainerTask.osbs in *;
  repeat (unfold_monad; simpl in *; case_match; simplify_eq);
  simpl in *; try congruence.

(** From [log st ++ new = log st ++ calls], the new calls. *)
Ltac new_calls Hlog new :=
  simpl in Hlog; rewrite <-?app_assoc in Hlog; apply app_inv_head in Hlog;
  subst new.

(** Finds a call in a list of calls that is written out. *)
Ltac find_call Hin :=
  simpl in Hin;
  repeat (apply elem_of_cons in Hin as [Hin|Hin]; [simplify_eq|]);
  try (by apply elem_of_nil in Hin).

(** * Strings *)

Lemma string_app_cons (c : ascii) (s t : string) :
  String c s +:+ t = String c (s +:+ t).
Proof. reflexivity. Qed.

Lemma string_app_nil_r (s : string) : s +:+ EmptyString = s.
Proof. induction s as [|c s IH]; [done|]. by rewrite string_app_cons, IH. Qed.

Lemma string_app_assoc (s t u : string) : (s +:+ t) +:+ u = s +:+ (t +:+ u).
Proof. induction s as [|c s IH]; [done|]. by rewrite !string_app_cons, IH. Qed.

Lemma string_length_app (s t : string) :
  String.length (s +:+ t) = (String.length s + String.length t)%nat.
Proof.
  induction s as [|c s IH]; [done|]. rewrite string_app_cons. simpl.
  by rewrite IH.
Qed.

Lemma string_substring_app (s t : string) :
  String.substring 0 (String.length s) (s +:+ t) = s.
Proof.
  induction s as [|c s IH]; [by destruct t|].
  rewrite string_app_cons. simpl. by rewrite IH.
Qed.

Lemma drop_last4_app (s t : string) :
  String.length t = 4%nat → drop_last4 (s +:+ t) = s.
Proof.
  intros Ht. unfold drop_last4. rewrite string_length_app, Ht.
  replace (String.length s + 4 - 4)%nat with (String.length s) by lia.
  apply string_substring_app.
Qed.

Lemma ends_with_unfold (suffix s : string) :
  ends_with suffix s
  = if String.eqb s suffix then true
    else match s with
         | EmptyString => false
         | String _ s' => ends_with suffix s'
         end.
Proof. by destruct s. Qed.

Lemma ends_with_iff (suffix s : string) :
  ends_with suffix s = true ↔ ∃ q, s = q +:+ suffix.
Proof.
  induction s as [|c s IH]; rewrite ends_with_unfold.
  - destruct (String.eqb_spec EmptyString suffix) as [<-|Hne].
    + split; [by exists EmptyString|done].
    + split; [done|]. intros [[|c q] Hq]; [by destruct Hne|].
      by rewrite string_app_cons in Hq.
  - destruct (String.eqb_spec (String c s) suffix) as [<-|Hne].
    + split; [by exists EmptyString|done].
    + rewrite IH. split.
      * intros [q ->]. by exists (String c q).
      * intros [[|c' q] Hq]; [by destruct Hne|]. rewrite string_app_cons in Hq.
        exists q. congruence.
Qed.

Lemma basename_go_plain (acc p : string) :
  contains_char "/" p = false → basename_go acc p = acc +:+ p.
Proof.
  revert acc. induction p as [|c p IH]; intros acc; simpl.
  - by rewrite string_app_nil_r.
  - destruct (Ascii.eqb c "/"); [done|]. simpl. intros Hp.
    rewrite IH by done. by rewrite string_app_assoc.
Qed.

Lemma basename_go_app (acc q t : string) :
  contains_char "/" t = false →
  basename_go acc (q +:+ t) = basename_go acc q +:+ t.
Proof.
  intros Ht. revert acc. induction q as [|c q IH]; intros acc.
  - by apply basename_go_plain.
  - rewrite string_app_cons. simpl. destruct (Ascii.eqb c "/"); apply IH.
Qed.

Lemma basename_go_suffix (acc p : string) :
  ∃ q, acc +:+ p = q +:+ basename_go acc p.
Proof.
  revert acc. induction p as [|c p IH]; intros acc; simpl.
  - exists EmptyString. by rewrite string_app_nil_r.
  - destruct (Ascii.eqb c "/").
    + destruct (IH EmptyString) as [q Hq]. simpl in Hq.
      exists (acc +:+ String c q).
      rewrite string_app_assoc, string_app_cons. by rewrite <-Hq.
    + destruct (IH (acc +:+ String c EmptyString)) as [q Hq].
      exists q. rewrite <-Hq. by rewrite string_app_assoc.
Qed.

Lemma basename_suffix (p : string) : ∃ q, p = q +:+ basename p.
Proof. apply (basename_go_suffix EmptyString p). Qed.

Lemma basename_app (q t : string) :
  contains_char "/" t = false → basename (q +:+ t) = basename q +:+ t.
Proof. apply basename_go_app. Qed.

(** * The component name (C8) *)

Lemma component_spec (repository : string) :
  CreateContainerTask.component repository
  = final_segment_stripped repository.
Proof.
  unfold CreateContainerTask.component, final_segment_stripped.
  destruct (ends_with ".git" repository) eqn:Hgit.
  - apply ends_with_iff in Hgit as [q ->].
    rewrite drop_last4_app by done. rewrite basename_app by done.
    replace (ends_with ".git" (basename q +:+ ".git")) with true
      by (symmetry; apply ends_with_iff; eauto).
    by rewrite drop_last4_app.
  - destruct (ends_with ".git" (basename repository)) eqn:Hseg; [|done].
    apply ends_with_iff in Hseg as [q Hq].
    destruct (basename_suffix repository) as [q' Hq'].
    rewrite Hq, <-string_app_assoc in Hq'.
    assert (ends_with ".git" repository = true)
      by (apply ends_with_iff; eauto).
    congruence.
Qed.

Lemma basename_slash (parent : string) :
  basename (parent +:+ "/") = EmptyString.
Proof.
  unfold basename. generalize EmptyString at 1.
  induction parent as [|c p IH]; intros acc; [done|].
  rewrite string_app_cons. simpl. destruct (Ascii.eqb c "/"); apply IH.
Qed.

(** C8: the component name that [createContainer] derives is the final
    segment of the repository path with a trailing [.git] stripped when
    present; so a path ending in [/foo.git] and a path ending in [/foo] both
    give the component [foo]; and that name is the component of every build
    that the handler submits, for the repository of its source. *)
Theorem component_is_final_segment :
  (∀ repository,
     CreateContainerTask.component repository
     = final_segment_stripped repository) ∧
  (∀ parent,
     CreateContainerTask.component (parent +:+ "/foo.git") = "foo" ∧
     CreateContainerTask.component (parent +:+ "/foo") = "foo") ∧
  (∀ E src target build_tag arch st r st'
     git_uri git_ref user component target_name arch',
     log st = [] →
     CreateContainerTask.handler E src target build_tag arch st = (r, st') →
     CreateBuild git_uri git_ref user component target_name arch' ∈ log st' →
     ∃ scm, new_SCM E src = Return scm ∧
            component = final_segment_stripped (scm_repository scm)).
Proof.
  split; [apply component_spec|]. split.
  - intros parent. rewrite !component_spec.
    unfold final_segment_stripped.
    change "/foo.git" with ("/" +:+ "foo.git").
    change "/foo" with ("/" +:+ "foo").
    rewrite <-!string_app_assoc.
    rewrite (basename_app (parent +:+ "/") "foo.git") by done.
    rewrite (basename_app (parent +:+ "/") "foo") by done.
    by rewrite basename_slash.
  - intros E src target build_tag arch st r st'
      git_uri git_ref user component target_name arch' Hlog.
    destruct st as [this calls]. simpl in Hlog. subst calls.
    unfold CreateContainerTask.handler, CreateContainerTask._download_logs,
      CreateContainerTask.osbs.
    intros Hrun Hin.
    repeat (unfold_monad; simpl in *; case_match; simplify_eq).
    all: simpl in Hin.
    all: repeat (apply elem_of_cons in Hin as [Hin|Hin]; [simplify_eq|]).
    all: try (by apply elem_of_nil in Hin).
    all: eexists; split; [done|apply component_spec].
Qed.

(** * The result of [createContainer] (C10) *)

(** C10: when the handler of [createContainer] returns, it returns a
    dictionary with exactly the keys [task_id], [logs] and [osbs_build_id]:
    the task's own identifier, the one-element list [['build.log']], and the
    identifier that the submission to the external build service
    answered. *)
Theorem createContainer_result (E : Env) (src : string) (target : target_info)
    (build_tag : Z) (arch : string)
    (st st' : state CreateContainerTask.instance) (imgdata : subtask_result) :
  CreateContainerTask.handler E src target build_tag arch st
  = (Return imgdata, st') →
  dom imgdata = {["task_id"; "logs"; "osbs_build_id"]} ∧
  imgdata !! "task_id" = Some (VInt (CreateContainerTask.self_id (self st))) ∧
  imgdata !! "logs" = Some (VStrs ["build.log"]) ∧
  ∃ git_uri git_ref user component build_id,
    CreateBuild git_uri git_ref user component (ti_name target) arch
      ∈ log st' ∧
    create_build E git_uri git_ref user component (ti_name target) arch
      = Return build_id ∧
    imgdata !! "osbs_build_id" = Some (VStr build_id).
Proof.
  unfold CreateContainerTask.handler, CreateContainerTask._download_logs,
    CreateContainerTask.osbs.
  intros Hrun.
  repeat (unfold_monad; simpl in *; case_match; simplify_eq).
  all: split; [by rewrite !dom_insert_L, dom_empty_L; set_solver|].
  all: do 2 (split; [done|]).
  all: do 5 eexists; (split; [|split; [eassumption|done]]).
  all: rewrite !elem_of_app, !list_elem_of_singleton; eauto 10.
Qed.

(** * Architecture resolution (C5, C6, C7) *)

Section arches.
Import BuildContainerTask.
Context (E : Env).

Lemma keep_arch_iff (tag_arches : list string) (a : string) :
  keep_arch E tag_arches a = true ↔ a = "noarch" ∨ canonArch E a ∈ tag_arches.
Proof.
  unfold keep_arch. rewrite orb_true_iff, !bool_decide_eq_true. tauto.
Qed.

Lemma elem_of_keys {V} (d : gmap string V) (a : string) :
  a ∈ keys d ↔ is_Some (d !! a).
Proof.
  unfold keys. rewrite list_elem_of_fmap. split.
  - intros [[k v] [-> Hkv]]. apply elem_of_map_to_list in Hkv. by exists v.
  - intros [v Hv]. exists (a, v). by rewrite elem_of_map_to_list.
Qed.

Lemma NoDup_keys {V} (d : gmap string V) : NoDup (keys d).
Proof. apply NoDup_fst_map_to_list. Qed.

Lemma keys_nil {V} (d : gmap string V) : keys d = [] ↔ d = ∅.
Proof.
  unfold keys. split.
  - intros Hnil. apply fmap_nil_inv in Hnil. by apply map_to_list_empty_iff.
  - intros ->. by rewrite map_to_list_empty.
Qed.

(** The dictionary that the loop of lines 181-186 builds from [archdict]. *)
Lemma filter_loop_lookup (tag_arches archlist : list string)
    (archdict : gmap string Z) (a : string) :
  is_Some
    (foldl (λ d x, if keep_arch E tag_arches x then <[x := 1]> d else d)
           archdict archlist !! a)
  ↔ is_Some (archdict !! a)
    ∨ (a ∈ archlist ∧ keep_arch E tag_arches a = true).
Proof.
  revert archdict. induction archlist as [|x l IH]; intros archdict; simpl.
  - rewrite elem_of_nil. tauto.
  - rewrite IH, elem_of_cons. destruct (keep_arch E tag_arches x) eqn:Hx.
    + rewrite lookup_insert_is_Some. destruct (decide (x = a)) as [->|Hne].
      * tauto.
      * split; [intros [[?|[_ ?]]|?]|intros [?|[[?|?] ?]]];
          try tauto; try congruence.
    + split; [tauto|]. intros [?|[[->|?] ?]]; try tauto. congruence.
Qed.

Lemma filter_arches_lookup (tag_arches archlist : list string) (a : string) :
  is_Some (filter_arches E tag_arches archlist !! a)
  ↔ a ∈ archlist ∧ (a = "noarch" ∨ canonArch E a ∈ tag_arches).
Proof.
  unfold filter_arches. rewrite filter_loop_lookup, lookup_empty, keep_arch_iff.
  split; [intros [[? ?]|?]; done|tauto].
Qed.

Lemma filter_arches_empty (tag_arches archlist : list string) :
  filter_arches E tag_arches archlist = ∅
  ↔ ∀ a, a ∈ archlist → ¬ (a = "noarch" ∨ canonArch E a ∈ tag_arches).
Proof.
  split.
  - intros Hempty a Ha Hkeep.
    assert (is_Some (filter_arches E tag_arches archlist !! a)) as [v Hv]
      by (apply filter_arches_lookup; done).
    by rewrite Hempty, lookup_empty in Hv.
  - intros Hnone. apply map_eq. intros a. rewrite lookup_empty.
    apply eq_None_not_Some. rewrite filter_arches_lookup.
    intros [Ha Hkeep]. by apply (Hnone a).
Qed.

(** What [getArchList] does once the task has its attributes and the tag's
    configuration declares arches. *)
Lemma getArchList_run (build_tag : Z) (extra : option string)
    (st : state instance) (ev : Z) (bc : buildconfig) (arches : string) :
  self_event_id (self st) = Some ev →
  getBuildConfig E build_tag ev = Return bc →
  bc_arches bc = Some arches →
  arches ≠ EmptyString →
  getArchList E build_tag extra st
  = (let archdict :=
       filter_arches E (tag_archlist E arches)
                     (working_archlist (self_opts (self st)) arches extra) in
     if bool_decide (archdict = ∅) then Raise no_matching_arches
     else Return (keys archdict),
     {| self := self st; log := log st ++ [GetBuildConfig build_tag ev] |}).
Proof.
  intros Hev Hbc Harches Hne. unfold getArchList, attr. unfold_monad.
  rewrite Hev. simpl. rewrite Hbc, Harches. simpl.
  destruct arches as [|c arches]; [done|]. simpl.
  by case_bool_decide.
Qed.

(** Conversely, a call that returns went that way. *)
Lemma getArchList_returns (build_tag : Z) (extra : option string)
    (st st' : state instance) (l : list string) :
  getArchList E build_tag extra st = (Return l, st') →
  ∃ ev bc arches,
    self_event_id (self st) = Some ev ∧
    getBuildConfig E build_tag ev = Return bc ∧
    bc_arches bc = Some arches ∧
    arches ≠ EmptyString ∧
    filter_arches E (tag_archlist E arches)
                  (working_archlist (self_opts (self st)) arches extra) ≠ ∅ ∧
    l = keys (filter_arches E (tag_archlist E arches)
                (working_archlist (self_opts (self st)) arches extra)) ∧
    st' = {| self := self st; log := log st ++ [GetBuildConfig build_tag ev] |}.
Proof.
  unfold getArchList, attr. unfold_monad. intros Hrun.
  destruct (self_event_id (self st)) as [ev|] eqn:Hev; [|done]. simpl in Hrun.
  destruct (getBuildConfig E build_tag ev) as [bc|] eqn:Hbc; [|done].
  destruct (bc_arches bc) as [arches|] eqn:Harches; [|done].
  destruct arches as [|c arches]; [done|]. simpl in Hrun.
  case_bool_decide; simplify_eq. by exists ev, bc, (String c arches).
Qed.

End arches.

Section resolution.
Import BuildContainerTask.
Context (E : Env) (build_tag : Z) (extra : option string).

(** C5: a call to [getArchList] that returns gives a non-empty collection
    without duplicates, whose elements are exactly the tokens of the working
    list that equal [noarch] or whose canonical form is among the canonical
    arches of the tag; and when no token of the working list passes that
    filter, the call fails with "No matching arches were found". *)
Theorem getArchList_resolved (st : state instance) :
  (∀ l st',
     getArchList E build_tag extra st = (Return l, st') →
     l ≠ [] ∧ NoDup l ∧
     ∃ ev bc arches,
       self_event_id (self st) = Some ev ∧
       getBuildConfig E build_tag ev = Return bc ∧
       bc_arches bc = Some arches ∧
       ∀ a, a ∈ l ↔
            a ∈ working_archlist (self_opts (self st)) arches extra ∧
            (a = "noarch" ∨ canonArch E a ∈ canonArch E <$> split arches)) ∧
  (∀ ev bc arches,
     self_event_id (self st) = Some ev →
     getBuildConfig E build_tag ev = Return bc →
     bc_arches bc = Some arches →
     arches ≠ EmptyString →
     (∀ a, a ∈ working_archlist (self_opts (self st)) arches extra →
           ¬ (a = "noarch" ∨ canonArch E a ∈ canonArch E <$> split arches)) →
     (getArchList E build_tag extra st).1 = Raise no_matching_arches).
Proof.
  split.
  - intros l st' Hrun.
    apply getArchList_returns in Hrun
      as (ev & bc & arches & Hev & Hbc & Harches & _ & Hne & -> & _).
    split; [by rewrite keys_nil|]. split; [apply NoDup_keys|].
    exists ev, bc, arches. repeat (split; [done|]).
    intros a. by rewrite elem_of_keys, filter_arches_lookup.
  - intros ev bc arches Hev Hbc Harches Hne Hnone.
    rewrite (getArchList_run E build_tag extra st ev bc arches) by done.
    simpl. rewrite bool_decide_eq_true_2; [done|].
    by apply filter_arches_empty.
Qed.


(** C7: for a scratch build with a non-empty override, the override tokens
    still go through the filter against the arches that the tag declares:
    the call returns exactly the override tokens that are [noarch] or
    canonically equal to a declared arch, and fails with "No matching arches
    were found" when no override token is. *)
Theorem override_is_filtered (st : state instance) (ev : Z)
    (override : string) (bc : buildconfig) (arches : string) :
  self_event_id (self st) = Some ev →
  self_opts (self st)
    = {| scratch := true; arch_override := Some override |} →
  override ≠ EmptyString →
  getBuildConfig E build_tag ev = Return bc →
  bc_arches bc = Some arches →
  arches ≠ EmptyString →
  let passes a :=
    a = "noarch" ∨ canonArch E a ∈ canonArch E <$> split arches in
  ((∀ a, a ∈ split override → ¬ passes a) →
   (getArchList E build_tag extra st).1 = Raise no_matching_arches) ∧
  ((∃ a, a ∈ split override ∧ passes a) →
   ∃ l, (getArchList E build_tag extra st).1 = Return l ∧
        l ≠ [] ∧ NoDup l ∧
        ∀ a, a ∈ l ↔ a ∈ split override ∧ passes a).
Proof.
  intros Hev Ho Hov Hbc Harches Hne passes.
  rewrite (getArchList_run E build_tag extra st ev bc arches) by done.
  rewrite Ho.
  assert (Hwork :
    working_archlist {| scratch := true; arch_override := Some override |}
                     arches extra = split override)
    by (unfold working_archlist; simpl; by destruct override).
  rewrite Hwork. simpl. split.
  - intros Hnone. rewrite bool_decide_eq_true_2; [done|].
    by apply filter_arches_empty.
  - intros (a & Ha & Hpass).
    rewrite bool_decide_eq_false_2.
    + eexists. split; [done|]. split; [|split; [apply NoDup_keys|]].
      * rewrite keys_nil, filter_arches_empty. intros Hnone.
        by apply (Hnone a).
      * intros a'. by rewrite elem_of_keys, filter_arches_lookup.
    + rewrite filter_arches_empty. intros Hnone. by apply (Hnone a).
Qed.

End resolution.

(** * The scenarios of the specification, run *)

Section scenarios.
Import BuildContainerTask Example.

Lemma no_arch_passes (tag_arches : list string) (a : string) :
  a ≠ "noarch" → example_canonArch a ∉ tag_arches →
  ¬ (a = "noarch" ∨ example_canonArch a ∈ tag_arches).
Proof. tauto. Qed.

(** Tag [x86_64 ppc64le], no override: both arches are resolved; with the
    scratch override [s390x], none is. *)
Lemma getArchList_resolved_witness :
  (getArchList E_ok 10 None (resolving no_opts)).1
    = Return ["x86_64"; "ppc64le"] ∧
  ["x86_64"; "ppc64le"] ≠ [] ∧ NoDup ["x86_64"; "ppc64le"] ∧
  (getArchList E_ok 10 None
     (resolving {| scratch := true; arch_override := Some "s390x" |})).1
    = Raise no_matching_arches.
Proof.
  pose proof (getArchList_resolved E_ok 10 None (resolving no_opts))
    as [Hret _].
  pose proof (getArchList_resolved E_ok 10 None
    (resolving {| scratch := true; arch_override := Some "s390x" |}))
    as [_ Hfail].
  split; [by vm_compute|].
  destruct (Hret ["x86_64"; "ppc64le"]
                 {| self := self (resolving no_opts);
                    log := [GetBuildConfig 10 7] |})
    as (Hne & Hnodup & _); [by vm_compute|].
  split; [done|]. split; [done|].
  apply (Hfail 7
               {| bc_name := "t1-build"; bc_id := 10;
                  bc_arches := Some "x86_64 ppc64le" |}
               "x86_64 ppc64le"); try done.
  intros a Ha. apply list_elem_of_singleton in Ha as ->.
  apply no_arch_passes; [done|].
  apply (bool_decide_unpack _). by vm_compute.
Defined.


(** Tag [x86_64 ppc64le], scratch build: the override [s390x] resolves to
    nothing and fails, the override [ppc64le i686] resolves to [ppc64le]. *)
Lemma override_is_filtered_witness :
  (getArchList E_ok 10 None
     (resolving {| scratch := true; arch_override := Some "s390x" |})).1
    = Raise no_matching_arches ∧
  ∃ l,
    (getArchList E_ok 10 None
       (resolving {| scratch := true;
                     arch_override := Some "ppc64le i686" |})).1
      = Return l ∧
    l ≠ [] ∧ NoDup l ∧ "ppc64le" ∈ l ∧ "i686" ∉ l.
Proof.
  split.
  - apply (override_is_filtered E_ok 10 None
             (resolving {| scratch := true; arch_override := Some "s390x" |})
             7 "s390x"
             {| bc_name := "t1-build"; bc_id := 10;
                bc_arches := Some "x86_64 ppc64le" |}
             "x86_64 ppc64le"); try done.
    intros a Ha. apply list_elem_of_singleton in Ha as ->.
    apply no_arch_passes; [done|].
    apply (bool_decide_unpack _). by vm_compute.
  - destruct (override_is_filtered E_ok 10 None
             (resolving {| scratch := true;
                           arch_override := Some "ppc64le i686" |})
             7 "ppc64le i686"
             {| bc_name := "t1-build"; bc_id := 10;
                bc_arches := Some "x86_64 ppc64le" |}
             "x86_64 ppc64le") as [_ Hsome]; try done.
    assert (Hppc : "ppc64le" ∈ split "ppc64le i686" ∧
                   ("ppc64le" = "noarch" ∨
                    canonArch E_ok "ppc64le"
                      ∈ canonArch E_ok <$> split "x86_64 ppc64le")).
    { split; [|right]; apply (bool_decide_unpack _); vm_compute; exact I. }
    destruct Hsome as (l & Hl & Hne & Hnodup & Hiff); [by exists "ppc64le"|].
    exists l. split; [exact Hl|]. split; [exact Hne|]. split; [exact Hnodup|].
    split; [apply Hiff, Hppc|].
    clear Hl. intros Hin. apply Hiff in Hin as [_ [Hnoarch|Hcanon]]; [done|].
    revert Hcanon. apply (bool_decide_unpack _). vm_compute. exact I.
Defined.

(** The build that task 101 submits for [/containers/foo.git] has the
    component [foo]. *)
Lemma component_is_final_segment_witness :
  CreateBuild "git://example.com/containers/foo.git" "master" "alice" "foo"
              "t1" "x86_64"
    ∈ log (CreateContainerTask.handler E_ok git_src t1 10 "x86_64"
                                       start_create).2 ∧
  ∃ scm, new_SCM E_ok git_src = Return scm ∧
         "foo" = final_segment_stripped (scm_repository scm).
Proof.
  assert (Hin :
    CreateBuild "git://example.com/containers/foo.git" "master" "alice" "foo"
                "t1" "x86_64"
      ∈ log (CreateContainerTask.handler E_ok git_src t1 10 "x86_64"
                                         start_create).2).
  { apply list_elem_of_In. vm_compute. do 5 right. left. reflexivity. }
  split; [exact Hin|].
  destruct component_is_final_segment as (_ & _ & Hhandler).
  apply (Hhandler E_ok git_src t1 10 "x86_64" start_create
           (CreateContainerTask.handler E_ok git_src t1 10 "x86_64"
                                        start_create).1
           (CreateContainerTask.handler E_ok git_src t1 10 "x86_64"
                                        start_create).2
           "git://example.com/containers/foo.git" "master" "alice" "foo"
           "t1" "x86_64").
  - reflexivity.
  - apply surjective_pairing.
  - exact Hin.
Defined.

(** The [createContainer] task 101 for [x86_64] runs to its end. *)
Lemma createContainer_result_witness :
  (CreateContainerTask.handler E_ok git_src t1 10 "x86_64" start_create).1
    = Return (imgdata 101 "foo-x86_64-1") ∧
  dom (imgdata 101 "foo-x86_64-1")
    = {["task_id"; "logs"; "osbs_build_id"]} ∧
  imgdata 101 "foo-x86_64-1" !! "logs" = Some (VStrs ["build.log"]).
Proof.
  split; [vm_compute; reflexivity|].
  destruct (createContainer_result E_ok git_src t1 10 "x86_64" start_create
              (CreateContainerTask.handler E_ok git_src t1 10 "x86_64"
                                           start_create).2
              (imgdata 101 "foo-x86_64-1"))
    as (Hdom & _ & Hlogs & _); [vm_compute; reflexivity|].
  split; [exact Hdom|exact Hlogs].
Defined.

End scenarios.

(** * The orchestrator, step by step *)

Section orchestrator.
Import BuildContainerTask.
Context (E : Env).


Lemma join_returns (ids : list Z) (results : gmap Z subtask_result) :
  join E ids = Return results →
  ∀ t, (t ∈ ids ↔ is_Some (results !! t)) ∧
       (∀ r, results !! t = Some r → task_outcome E t = Return r).
Proof.
  revert results. induction ids as [|x ids IH]; intros results; simpl.
  - intros [= <-] t. rewrite lookup_empty, elem_of_nil.
    split; [split; [done|by intros [? ?]]|done].
  - destruct (task_outcome E x) as [r|] eqn:Hx; [|done].
    destruct (join E ids) as [rest|]; [|done]. intros [= <-] t.
    destruct (IH rest eq_refl t) as [Hdom Hout].
    rewrite elem_of_cons, lookup_insert_is_Some, Hdom. split.
    + destruct (decide (x = t)) as [->|Hne]; [by split; auto|].
      split; [intros [->|?]; [done|auto]|intros [?|[_ ?]]; auto].
    + intros r'. destruct (decide (x = t)) as [->|Hne].
      * rewrite lookup_insert_eq. congruence.
      * rewrite lookup_insert_ne by done. apply Hout.
Qed.

Lemma dispatch_spec (src : string) (target : target_info) (build_tag : Z)
    (arches : list string) (subtasks : gmap string Z) (st st' : state instance)
    (r : result (gmap string Z)) :
  dispatch E src target build_tag arches subtasks st = (r, st') →
  self st' = self st ∧
  ∃ subs,
    log st' = log st ++ subs ∧
    Forall (λ c, is_subtask c = true) subs ∧
    ∀ m, r = Return m → ∀ arch t, m !! arch = Some t →
      subtasks !! arch = Some t ∨
      (Subtask "createContainer" src target build_tag arch "container"
               (self_id (self st)) ∈ subs ∧
       host_subtask E "createContainer" src target build_tag arch "container"
                    (self_id (self st)) = Return t).
Proof.
  revert subtasks st. induction arches as [|arch rest IH]; intros subtasks st.
  - simpl. unfold_monad. intros [= <- <-]. split; [done|]. exists [].
    rewrite app_nil_r. split; [done|]. split; [done|]. naive_solver.
  - simpl. unfold_monad. simpl.
    destruct (host_subtask E "createContainer" src target build_tag arch
                "container" (self_id (self st))) as [t|e] eqn:Hanswer.
    + intros Hrest. apply IH in Hrest as (Hself & subs & Hlog & Hsubs & Hm).
      simpl in *. split; [done|]. eexists (_ :: subs).
      split; [by rewrite Hlog, <-app_assoc|].
      split; [by constructor|].
      intros m -> a t' Hlookup.
      destruct (Hm m eq_refl a t' Hlookup) as [Hold|[Hin Hans]].
      * destruct (decide (arch = a)) as [->|Hne].
        -- rewrite lookup_insert_eq in Hold. simplify_eq.
           right. split; [apply list_elem_of_here|done].
        -- rewrite lookup_insert_ne in Hold by done. by left.
      * right. split; [by apply list_elem_of_further|done].
    + intros [= <- <-]. simpl. split; [done|]. eexists [_].
      split; [done|]. split; [by repeat constructor|]. done.
Qed.

Lemma elem_of_values {K} `{Countable K} {V} (d : gmap K V) (v : V) :
  v ∈ values d ↔ ∃ k, d !! k = Some v.
Proof.
  unfold values. rewrite list_elem_of_fmap. split.
  - intros [[k v'] [-> Hkv]]. apply elem_of_map_to_list in Hkv. by exists k.
  - intros [k Hk]. exists (k, v). by rewrite elem_of_map_to_list.
Qed.

Lemma runBuilds_spec (src : string) (target : target_info) (build_tag : Z)
    (arches : list string) (st st' : state instance)
    (r : result (gmap Z subtask_result)) :
  runBuilds E src target build_tag arches st = (r, st') →
  self st' = self st ∧
  ∃ subs,
    Forall (λ c, is_subtask c = true) subs ∧
    ((∃ e, r = Raise e ∧ log st' = log st ++ subs) ∨
     (∃ ids, log st' = log st ++ subs ++ [Wait ids] ∧ r = join E ids ∧
             dispatched E src target build_tag (self_id (self st)) subs ids)).
Proof.
  unfold runBuilds, wait. unfold_monad.
  destruct (dispatch E src target build_tag arches ∅ st) as [[m|e] st1] eqn:Hd;
    apply dispatch_spec in Hd as (Hself & subs & Hlog & Hsubs & Hm).
  - destruct (join E (values m)) as [results|e] eqn:Hjoin;
      intros [= <- <-]; simpl; (split; [done|]); exists subs;
      (split; [done|]); right; exists (values m);
      (split; [by rewrite Hlog, <-app_assoc|]); (split; [done|]).
    all: intros t [arch Harch]%elem_of_values.
    all: destruct (Hm m eq_refl arch t Harch) as [Hempty|?]; [|by exists arch].
    all: by rewrite lookup_empty in Hempty.
  - intros [= <- <-]. split; [done|]. exists subs. split; [done|].
    left. by exists e.
Qed.

(** The verification loop of lines 246-247 stops at its first result: the
    task has no [osbs]. *)
Lemma verification_run (l : list subtask_result) (st : state instance) :
  for_each l (λ r, let* b := getitem r "osbs_build_id" in
                   _raise_if_image_failed E b) st
  = (match l with
     | [] => Return tt
     | r :: _ =>
         match r !! "osbs_build_id" with
         | Some _ =>
             Raise (AttributeError
                      "'BuildContainerTask' object has no attribute 'osbs'")
         | None => Raise (KeyError "osbs_build_id")
         end
     end, st).
Proof.
  destruct l as [|r l]; [done|]. simpl.
  unfold _raise_if_image_failed, osbs. unfold_monad.
  by destruct (r !! "osbs_build_id").
Qed.

Lemma handler_try_spec (src target : string) (o : Opts)
    (target_info : target_info) (build_tag : Z) (archlist : list string)
    (st st' : state instance) (r : result unit) :
  handler_try E src target o target_info build_tag archlist st = (r, st') →
  self_opts (self st') = self_opts (self st) ∧
  self_id (self st') = self_id (self st) ∧
  ∃ subs,
    Forall (λ c, is_subtask c = true) subs ∧
    ((∃ e, r = Raise e ∧ log st' = log st ++ subs) ∨
     (∃ ids e,
        log st' = log st ++ subs ++ [Wait ids] ∧
        dispatched E src target_info build_tag (self_id (self st)) subs ids ∧
        join E ids = Raise e ∧ r = Raise e) ∨
     (∃ ids results,
        dispatched E src target_info build_tag (self_id (self st)) subs ids ∧
        join E ids = Return results ∧
        if scratch o
        then log st' = log st ++ subs ++
               [Wait ids;
                MoveContainerToScratch (self_id (self st))
                                       (results_xmlrpc results)]
        else log st' = log st ++ subs ++ [Wait ids] ∧ r = Raise unsupported)).
Proof.
  unfold handler_try. unfold_monad. simpl.
  destruct (is_scm_url E src); simpl.
  - destruct (runBuilds E src target_info build_tag archlist _)
      as [[results|e] st1] eqn:Hrun;
      apply runBuilds_spec in Hrun
        as (Hself & subs & Hsubs & [(e' & He' & Hlog)|(ids & Hlog & Hr & Hd)]);
      simpl in *; simplify_eq.
    + destruct (scratch o) eqn:Hscratch.
      * destruct (host_moveContainerToScratch E _ _);
          [rewrite verification_run|]; intros [= <- <-]; simpl;
          rewrite Hself; simpl; (do 2 (split; [done|])); exists subs;
          (split; [done|]); right; right; exists ids, results;
          rewrite Hlog, <-!app_assoc; done.
      * intros [= <- <-]. rewrite Hself. simpl. do 2 (split; [done|]).
        exists subs. split; [done|]. right; right. by exists ids, results.
    + intros [= <- <-]. rewrite Hself. simpl. do 2 (split; [done|]).
      exists subs. split; [done|]. left. by eexists.
    + intros [= <- <-]. rewrite Hself. simpl. do 2 (split; [done|]).
      exists subs. split; [done|]. right; left. by eexists ids, _.
  - intros [= <- <-]. simpl. do 2 (split; [done|]). exists [].
    split; [done|]. left. eexists. by rewrite app_nil_r.
Qed.

Lemma getArchList_effect (build_tag : Z) (extra : option string)
    (st st' : state instance) (r : result (list string)) :
  getArchList E build_tag extra st = (r, st') →
  self st' = self st ∧
  ∃ lookups, log st' = log st ++ lookups ∧
             Forall (λ c, is_lookup c = true) lookups.
Proof.
  unfold getArchList, attr. unfold_monad. intros Hrun.
  repeat (case_match; simplify_eq/=); (split; [done|]);
    try (by exists []; rewrite app_nil_r);
    by eexists [_]; split; [done|]; repeat constructor.
Qed.

Lemma handler_resolve_spec (target : string) (st st' : state instance)
    (r : result (target_info * list string)) :
  handler_resolve E target st = (r, st') →
  self_opts (self st') = self_opts (self st) ∧
  self_id (self st') = self_id (self st) ∧
  ∃ lookups, log st' = log st ++ lookups ∧
             Forall (λ c, is_lookup c = true) lookups.
Proof.
  unfold handler_resolve. unfold_monad. simpl.
  destruct (getLastEvent E) as [ev|e]; simpl.
  - destruct (getBuildTarget E target ev) as [[ti|]|e]; simpl.
    + destruct (getArchList E (ti_build_tag ti) None _)
        as [[archlist|e] st1] eqn:Harch;
        apply getArchList_effect in Harch as (Hself & lookups & Hlog & Hall);
        intros [= <- <-]; rewrite Hself; simpl; (do 2 (split; [done|]));
        exists ([GetLastEvent; GetBuildTarget target ev] ++ lookups);
        (split; [by rewrite Hlog; simpl; rewrite <-!app_assoc|]);
        by repeat constructor.
    + intros [= <- <-]. simpl. do 2 (split; [done|]).
      exists [GetLastEvent; GetBuildTarget target ev].
      split; [by rewrite <-app_assoc|]. by repeat constructor.
    + intros [= <- <-]. simpl. do 2 (split; [done|]).
      exists [GetLastEvent; GetBuildTarget target ev].
      split; [by rewrite <-app_assoc|]. by repeat constructor.
  - intros [= <- <-]. simpl. do 2 (split; [done|]). exists [GetLastEvent].
    split; [done|]. by repeat constructor.
Qed.

(** The handler in one equation: the arches are resolved, a build without
    the scratch flag is refused, and the [try] statement lets through
    whatever its body does. *)
Lemma handler_run (src target : string) (opts : option Opts)
    (st : state instance) :
  handler E src target opts st
  = let o := default no_opts opts in
    match handler_resolve E target
            {| self := set_opts o (self st); log := log st |} with
    | (Raise e, st1) => (Raise e, st1)
    | (Return resolved, st1) =>
        if scratch o
        then handler_try E src target o resolved.1 (ti_build_tag resolved.1)
                         resolved.2 st1
        else (Raise unsupported, st1)
    end.
Proof.
  unfold handler. unfold_monad. simpl.
  destruct (handler_resolve E target _) as [[resolved|e] st1] eqn:Hres; [|done].
  apply handler_resolve_spec in Hres as (Hopts & _). simpl in Hopts.
  rewrite Hopts.
  destruct (scratch (default no_opts opts)) eqn:Hscratch; [|done]. simpl.
  destruct (handler_try E src target _ _ _ _ st1) as [[[]|e] st2] eqn:Htry;
    [done|].
  apply handler_try_spec in Htry as (Hopts' & _).
  unfold handler_except. unfold_monad.
  destruct (is_exit_signal e); [done|].
  by rewrite Hopts', Hopts, Hscratch.
Qed.





Lemma lookup_is_no_subtask (l : list call) :
  Forall (λ c, is_lookup c = true) l →
  Forall (λ c, is_subtask c = false) l.
Proof. intros Hall. eapply Forall_impl; [done|]. by intros []. Qed.

End orchestrator.

(** * The orchestrator's guarantees (C3, C4, C9) *)

Section orchestration.
Import BuildContainerTask.
Context (E : Env).


(** C4, as the code has it: a build without the scratch flag always ends
    in an exception and never creates a subtask; once the target and its
    arches are resolved, the exception is the "support isn't finished"
    [NotImplementedError], and when that resolution fails the handler ends
    with the resolution's own exception. *)
Theorem non_scratch_is_refused (src target : string) (opts : option Opts)
    (st : state instance) :
  scratch (default no_opts opts) = false →
  let st0 := {| self := set_opts (default no_opts opts) (self st);
                log := log st |} in
  (∃ e, (handler E src target opts st).1 = Raise e) ∧
  (∃ new, log (handler E src target opts st).2 = log st ++ new ∧
          Forall (λ c, is_subtask c = false) new) ∧
  (∀ resolved st1,
     handler_resolve E target st0 = (Return resolved, st1) →
     handler E src target opts st = (Raise unsupported, st1)) ∧
  (∀ e st1,
     handler_resolve E target st0 = (Raise e, st1) →
     handler E src target opts st = (Raise e, st1)).
Proof.
  intros Hscratch st0. rewrite handler_run. simpl. fold st0.
  rewrite Hscratch.
  destruct (handler_resolve E target st0) as [[resolved|e] st1] eqn:Hres;
    pose proof (handler_resolve_spec E _ _ _ _ Hres)
      as (_ & _ & lookups & Hlog & Hlook);
    simpl in *; (split; [by eexists|]);
    (split; [exists lookups; split; [done|by apply lookup_is_no_subtask]|]);
    split; congruence.
Qed.

(** C9: an exception that leaves the body of the [try] leaves the handler
    unchanged and in the state the body left, so the error handler made no
    call: always when it is [SystemExit], [ServerExit] or
    [KeyboardInterrupt], and for every exception when the build is a
    scratch build. *)
Theorem exceptions_are_reraised :
  (∀ src target o target_info build_tag archlist st e st',
     handler_try E src target o target_info build_tag archlist st
       = (Raise e, st') →
     is_exit_signal e = true →
     try_except (handler_try E src target o target_info build_tag archlist)
                handler_except st
       = (Raise e, st')) ∧
  (∀ src target o target_info build_tag archlist st e st',
     handler_try E src target o target_info build_tag archlist st
       = (Raise e, st') →
     scratch (self_opts (self st)) = true →
     try_except (handler_try E src target o target_info build_tag archlist)
                handler_except st
       = (Raise e, st')) ∧
  (∀ src target opts st resolved st1 e st2,
     scratch (default no_opts opts) = true →
     handler_resolve E target
       {| self := set_opts (default no_opts opts) (self st); log := log st |}
       = (Return resolved, st1) →
     handler_try E src target (default no_opts opts) resolved.1
                 (ti_build_tag resolved.1) resolved.2 st1
       = (Raise e, st2) →
     handler E src target opts st = (Raise e, st2)).
Proof.
  split; [|split].
  - intros src target o ti bt archlist st e st' Htry Hsignal.
    unfold try_except. rewrite Htry. unfold handler_except.
    by rewrite Hsignal.
  - intros src target o ti bt archlist st e st' Htry Hscratch.
    unfold try_except. rewrite Htry.
    apply handler_try_spec in Htry as (Hopts' & _).
    unfold handler_except. unfold_monad.
    destruct (is_exit_signal e); [done|].
    by rewrite Hopts', Hscratch.
  - intros src target opts st resolved st1 e st2 Hscratch Hres Htry.
    rewrite handler_run. simpl. by rewrite Hres, Hscratch.
Qed.

End orchestration.

(** * The keys of the finalization mapping *)

Lemma xmlrpc_loop_lookup (l : list (Z * subtask_result))
    (d : gmap string subtask_result) (k : string) (r : subtask_result) :
  NoDup l.*1 →
  foldl (λ acc '(task_id, r), <[str task_id := r]> acc) d l !! k = Some r
  ↔ (∃ t, k = str t ∧ (t, r) ∈ l) ∨
    (d !! k = Some r ∧ ∀ t, t ∈ l.*1 → k ≠ str t).
Proof.
  revert d. induction l as [|[t0 r0] l IH]; intros d Hnodup; simpl.
  - split; [intros Hd; right; split; [done|by intros t ?%elem_of_nil]|].
    intros [(t & _ & Hin)|[Hd _]]; [by apply elem_of_nil in Hin|done].
  - apply NoDup_cons in Hnodup as [Hfresh Hnodup]. rewrite IH by done.
    destruct (decide (k = str t0)) as [->|Hne].
    + rewrite lookup_insert_eq. split.
      * intros [(t & Ht & Hin)|[[= <-] _]].
        -- apply (inj str) in Ht as <-. destruct Hfresh.
           apply list_elem_of_fmap. by exists (t0, r).
        -- left. exists t0. split; [done|apply list_elem_of_here].
      * intros [(t & Ht & Hin)|[_ Hnone]].
        -- apply (inj str) in Ht as <-.
           apply elem_of_cons in Hin as [[= <-]|Hin].
           ++ right. split; [done|]. intros t Ht Heq.
              apply (inj str) in Heq as <-. done.
           ++ destruct Hfresh. apply list_elem_of_fmap. by exists (t0, r).
        -- destruct (Hnone t0); [apply list_elem_of_here|done].
    + rewrite lookup_insert_ne by done. split.
      * intros [(t & Ht & Hin)|[Hd Hnone]].
        -- left. exists t. split; [done|by apply list_elem_of_further].
        -- right. split; [done|]. intros t [->|Ht]%elem_of_cons; auto.
      * intros [(t & Ht & Hin)|[Hd Hnone]].
        -- apply elem_of_cons in Hin as [[= -> ->]|Hin]; [done|].
           left. by exists t.
        -- right. split; [done|]. intros t Ht.
           apply Hnone. by apply list_elem_of_further.
Qed.

(** Whatever the results, the keys of the mapping of lines 233-236 are the
    texts of the task identifiers. *)
Lemma results_xmlrpc_lookup (results : gmap Z subtask_result) (k : string)
    (r : subtask_result) :
  BuildContainerTask.results_xmlrpc results !! k = Some r
  ↔ ∃ t, k = str t ∧ results !! t = Some r.
Proof.
  unfold BuildContainerTask.results_xmlrpc.
  rewrite xmlrpc_loop_lookup by apply NoDup_fst_map_to_list.
  rewrite lookup_empty. split.
  - intros [(t & -> & Hin)|[? _]]; [|done].
    exists t. by apply elem_of_map_to_list in Hin.
  - intros (t & -> & Ht). left. exists t. by rewrite elem_of_map_to_list.
Qed.

(** * The orchestrator on the scenarios *)

Section orchestrator_scenarios.
Import BuildContainerTask Example.

(** C1, at the failing input: a scratch build of target [t1] whose tag
    declares [x86_64] alone dispatches one subtask for [x86_64], which gets
    the identifier 101; the mapping handed to [moveContainerToScratch] has
    the single key ['101'], the text of the identifier, and no key
    [x86_64].  Whatever the results, the keys of that mapping are the texts
    of task identifiers. *)
Theorem finalization_is_keyed_by_task_id :
  log (handler E_one git_src "t1" (scratch_opts None) start).2
  = t1_lookups ++
    [t1_subtask "x86_64"; Wait [101];
     MoveContainerToScratch 1 {["101" := imgdata 101 "build-101"]}] ∧
  ({["101" := imgdata 101 "build-101"]} : gmap string subtask_result)
    !! "x86_64" = None ∧
  (∀ results k r,
     results_xmlrpc results !! k = Some r
     ↔ ∃ t, k = str t ∧ results !! t = Some r).
Proof.
  split; [vm_compute; reflexivity|]. split; [vm_compute; reflexivity|].
  apply results_xmlrpc_lookup.
Qed.

(** C2, at the failing input: a scratch build of [t1] for [x86_64] and
    [ppc64le], both subtasks complete, the external build of the [ppc64le]
    subtask has failed.  The handler calls [moveContainerToScratch] and
    then raises, but what it raises is the [AttributeError] of the missing
    [osbs], not [ContainerError], and the status of no external build is
    ever fetched. *)
Theorem verification_raises_AttributeError :
  get_build_is_failed E_ppc64le_failed (VStr "build-102") = Return true ∧
  (handler E_ppc64le_failed git_src "t1" (scratch_opts None) start).1
  = Raise no_osbs ∧
  Raise no_osbs ≠ Raise (A:=unit) (ContainerError "Image build failed") ∧
  log (handler E_ppc64le_failed git_src "t1" (scratch_opts None) start).2
  = t1_lookups ++
    [t1_subtask "x86_64"; t1_subtask "ppc64le"; Wait [101; 102];
     MoveContainerToScratch 1
       (<["101" := imgdata 101 "build-101"]>
          {["102" := imgdata 102 "build-102"]})].
Proof.
  split; [reflexivity|]. split; [vm_compute; reflexivity|].
  split; [discriminate|]. vm_compute; reflexivity.
Qed.

(** C4 as stated does not hold: when the tag declares no arches, a build
    without the scratch flag ends in the [BuildError] of the arch
    resolution, not in the "unsupported" error. *)
Lemma non_scratch_without_arches :
  ¬ (∀ E src target opts st,
       scratch (default no_opts opts) = false →
       (handler E src target opts st).1 = Raise unsupported ∧
       Forall (λ c, is_subtask c = false)
              (drop (length (log st)) (log (handler E src target opts st).2))).
Proof.
  intros Hclaim.
  destruct (Hclaim E_no_arches git_src "t1" None start eq_refl) as [Hgate _].
  vm_compute in Hgate. discriminate Hgate.
Qed.

(** A build of [t1] without options is refused once its arches are
    resolved. *)
Lemma non_scratch_is_refused_witness :
  scratch (default no_opts None) = false ∧
  handler E_ok git_src "t1" None start
  = (Raise unsupported,
     {| self := {| self_id := 1; self_opts := no_opts;
                   self_event_id := Some 7;
                   self_extra_information := None |};
        log := t1_lookups |}).
Proof.
  split; [reflexivity|].
  destruct (non_scratch_is_refused E_ok git_src "t1" None start eq_refl)
    as (_ & _ & Hresolved & _).
  apply (Hresolved (t1, ["x86_64"; "ppc64le"])).
  vm_compute. reflexivity.
Defined.


(** The queue service shuts down during the dispatch of a scratch build:
    [ServerExit] leaves the handler as it was raised, after the one
    [subtask] call that raised it. *)
Lemma exceptions_are_reraised_witness :
  handler E_exit git_src "t1" (scratch_opts None) start
  = (Raise ServerExit,
     {| self := {| self_id := 1;
                   self_opts := scratch_build None;
                   self_event_id := Some 7;
                   self_extra_information := Some (git_src, 1, "t1") |};
        log := t1_lookups ++ [t1_subtask "x86_64"] |}) ∧
  try_except
    (handler_try E_exit git_src "t1" no_opts t1 10 ["x86_64"; "ppc64le"])
    handler_except (resolving no_opts)
  = (Raise ServerExit,
     {| self := {| self_id := 1;
                   self_opts := no_opts;
                   self_event_id := Some 7;
                   self_extra_information := Some (git_src, 1, "t1") |};
        log := [t1_subtask "x86_64"] |}).
Proof.
  destruct (exceptions_are_reraised E_exit) as (Hsignal & Hscratch & Hhandler).
  split.
  - apply (Hhandler git_src "t1" (scratch_opts None) start
                    (t1, ["x86_64"; "ppc64le"])
                    {| self := {| self_id := 1;
                                  self_opts := scratch_build None;
                                  self_event_id := Some 7;
                                  self_extra_information := None |};
                       log := t1_lookups |}).
    + reflexivity.
    + vm_compute. reflexivity.
    + vm_compute. reflexivity.
  - apply Hsignal; [vm_compute; reflexivity|reflexivity].
Defined.

End orchestrator_scenarios.

(** * More on the strings *)

Lemma contains_char_app (c : ascii) (s t : string) :
  contains_char c (s +:+ t) = contains_char c s || contains_char c t.
Proof.
  induction s as [|c' s IH]; [done|].
  rewrite string_app_cons. simpl. by rewrite IH, orb_assoc.
Qed.

Lemma basename_go_no_slash (acc p : string) :
  contains_char "/" acc = false →
  contains_char "/" (basename_go acc p) = false.
Proof.
  revert acc. induction p as [|c p IH]; intros acc Hacc; [done|]. simpl.
  destruct (Ascii.eqb c "/") eqn:Hc; apply IH; [done|].
  rewrite contains_char_app, Hacc. simpl. by rewrite Hc.
Qed.

Lemma substring_no_char (c : ascii) (n : nat) (s : string) :
  contains_char c s = false →
  contains_char c (String.substring 0 n s) = false.
Proof.
  revert n. induction s as [|c' s IH]; intros [|n]; try done. simpl.
  intros [-> Hs]%orb_false_iff. by rewrite IH.
Qed.

(** X6: the component name that [createContainer] derives never contains
    a path separator, whatever the repository path. *)
Theorem component_has_no_slash (repository : string) :
  contains_char "/" (CreateContainerTask.component repository) = false.
Proof.
  rewrite component_spec. unfold final_segment_stripped.
  assert (contains_char "/" (basename repository) = false)
    by by apply basename_go_no_slash.
  destruct (ends_with ".git" (basename repository)); [|done].
  by apply substring_no_char.
Qed.

Lemma ends_with_slash_basename (a : string) :
  ends_with "/" a = true → basename a = EmptyString.
Proof. intros [q ->]%ends_with_iff. apply basename_slash. Qed.

Lemma basename_path_join (dir name : string) :
  contains_char "/" name = false →
  basename (path_join dir name) = name.
Proof.
  intros Hname. unfold path_join.
  assert (Hjoin :
    basename (if bool_decide (dir = EmptyString) || ends_with "/" dir
              then dir +:+ name else dir +:+ "/" +:+ name) = name).
  { destruct (bool_decide (dir = EmptyString) || ends_with "/" dir) eqn:Hdir.
    - rewrite basename_app by done.
      apply orb_true_iff in Hdir as [->%bool_decide_eq_true|Hdir]; [done|].
      by rewrite ends_with_slash_basename.
    - rewrite <-string_app_assoc, basename_app by done.
      by rewrite basename_slash. }
  destruct name as [|c name]; [done|].
  destruct (Ascii.eqb_spec c "/") as [->|Hc]; [done|].
  destruct c as [[] [] [] [] [] [] [] []]; try done.
Qed.

Lemma split_on_go_plain (sep : ascii) (cur s : string) :
  contains_char sep s = false → split_on_go sep cur s = [cur +:+ s].
Proof.
  revert cur. induction s as [|c s IH]; intros cur; simpl.
  - by rewrite string_app_nil_r.
  - destruct (Ascii.eqb c sep); [done|]. simpl. intros Hs.
    rewrite IH by done. by rewrite string_app_assoc.
Qed.

Lemma split_on_go_app (sep : ascii) (cur a rest : string) :
  contains_char sep a = false →
  split_on_go sep cur (a +:+ String sep rest)
  = (cur +:+ a) :: split_on_go sep EmptyString rest.
Proof.
  revert cur. induction a as [|c a IH]; intros cur.
  - intros _. simpl. rewrite Ascii.eqb_refl. by rewrite string_app_nil_r.
  - rewrite string_app_cons. simpl. destruct (Ascii.eqb c sep); [done|].
    simpl. intros Ha. rewrite IH by done. by rewrite string_app_assoc.
Qed.

(** X5: the scheme that the handler puts in front of the git URI: a scheme
    without [+] is kept as it is; of a scheme [a+b] the part after the [+]
    is kept ([git+https://] gives [https://]); and of [a+b+c] only the
    middle part [b], what follows a second [+] being dropped. *)
Theorem plain_scheme_cases (a b c : string) :
  contains_char "+" a = false →
  contains_char "+" b = false →
  CreateContainerTask.plain_scheme a = a ∧
  CreateContainerTask.plain_scheme (a +:+ "+" +:+ b) = b ∧
  CreateContainerTask.plain_scheme (a +:+ "+" +:+ b +:+ "+" +:+ c) = b.
Proof.
  intros Ha Hb. unfold CreateContainerTask.plain_scheme, split_on.
  split; [by rewrite Ha|]. split.
  - rewrite contains_char_app, Ha. simpl.
    change ("+" +:+ b) with (String "+" b).
    rewrite split_on_go_app by done. by rewrite split_on_go_plain.
  - rewrite contains_char_app, Ha. simpl.
    change ("+" +:+ b +:+ "+" +:+ c) with (String "+" (b +:+ String "+" c)).
    rewrite split_on_go_app by done. by rewrite split_on_go_app.
Qed.

Lemma plain_scheme_cases_witness :
  CreateContainerTask.plain_scheme "git" = "git" ∧
  CreateContainerTask.plain_scheme "git+https://" = "https://" ∧
  CreateContainerTask.plain_scheme "git+ssh+https://" = "ssh".
Proof.
  destruct (plain_scheme_cases "git" "https://" EmptyString)
    as (Hplain & Hone & _); [done|done|].
  destruct (plain_scheme_cases "git" "ssh" "https://")
    as (_ & _ & Htwo); [done|done|].
  split; [exact Hplain|]. split; [exact Hone|exact Htwo].
Defined.

(** * More on [createContainer] *)

Section create.
Import CreateContainerTask.
Context (E : Env).

(** X1: the OSBS client is built on first use and kept: asking for it twice
    in a row does what asking once does, so the second request makes no
    call; and when the task already has a client, [osbs] answers it without
    any call. *)
Theorem osbs_is_cached (st : state instance) :
  (run osbs E in osbs E) st = osbs E st ∧
  (∀ o, self__osbs (self st) = Some o → osbs E st = (Return o, st)).
Proof.
  unfold osbs. unfold_monad. simpl. split.
  - destruct (self__osbs (self st)) as [o|] eqn:Ho; simpl.
    + by rewrite Ho.
    + by destruct (new_OSBS E).
  - intros o ->. done.
Qed.

(** X2: a run of the handler that returns has made exactly these calls, in
    this order: the task's info, its owner, the parsing of the source, the
    allow-list check, the construction of the OSBS client when the task had
    none, the submission of the build, the wait for its end, the fetching
    of its logs, the writing of [build.log] in the work directory and the
    upload of that same file. *)
Theorem createContainer_calls (src : string) (target : target_info)
    (build_tag : Z) (arch : string) (st st' : state instance)
    (imgdata : subtask_result) :
  handler E src target build_tag arch st = (Return imgdata, st') →
  ∃ owner user scm build_id contents,
    getTaskInfo E (self_id (self st)) = Return owner ∧
    getUser E owner = Return user ∧
    new_SCM E src = Return scm ∧
    get_build_logs E build_id = Return contents ∧
    imgdata !! "osbs_build_id" = Some (VStr build_id) ∧
    log st'
    = log st ++
      [GetTaskInfo (self_id (self st)); GetUser owner; NewSCM src;
       AssertAllowed (scm_repository scm) (self_allowed_scms (self st))] ++
      (match self__osbs (self st) with Some _ => [] | None => [NewOSBS] end)
      ++
      [CreateBuild
         (plain_scheme (scm_scheme scm) +:+ scm_host scm
          +:+ scm_repository scm)
         (scm_revision scm) user (component (scm_repository scm))
         (ti_name target) arch;
       WaitForBuildToFinish build_id;
       GetBuildLogs build_id;
       WriteFile (path_join (self_workdir (self st)) "build.log") contents;
       UploadFile (path_join (self_workdir (self st)) "build.log")].
Proof.
  destruct st as [this calls]. intros Hrun. run_handler.
  all: do 5 eexists; repeat (split; [eassumption || done|]).
  all: simpl; rewrite <-!app_assoc; reflexivity.
Qed.

(** X3: whatever the run, a build is submitted only once the task's owner
    is known, the source is parsed and has passed the allow-list; it is
    submitted for that owner's name, the revision and repository of the
    source, the name of the target and the arch of the task. *)
Theorem build_is_submitted_after_validation (src : string)
    (target : target_info) (build_tag : Z) (arch : string)
    (st st' : state instance) (r : result subtask_result) (new : list call)
    (git_uri git_ref user comp target_name arch' : string) :
  handler E src target build_tag arch st = (r, st') →
  log st' = log st ++ new →
  CreateBuild git_uri git_ref user comp target_name arch' ∈ new →
  ∃ owner scm,
    getTaskInfo E (self_id (self st)) = Return owner ∧
    getUser E owner = Return user ∧
    new_SCM E src = Return scm ∧
    assert_allowed E scm (self_allowed_scms (self st)) = Return tt ∧
    git_uri = plain_scheme (scm_scheme scm) +:+ scm_host scm
              +:+ scm_repository scm ∧
    git_ref = scm_revision scm ∧
    comp = component (scm_repository scm) ∧
    target_name = ti_name target ∧
    arch' = arch.
Proof.
  destruct st as [this calls]. intros Hrun Hlog Hin. run_handler.
  all: new_calls Hlog new; find_call Hin.
  all: repeat match goal with u : unit |- _ => destruct u end.
  all: by do 2 eexists.
Qed.

(** X4: whatever the run, the only file the handler uploads is [build.log]
    of its work directory, whose base name is the [build.log] that the
    result lists, and it uploads it only after it has waited for the build
    to finish, fetched the logs of that build and written them to that
    file. *)
Theorem upload_follows_download (src : string) (target : target_info)
    (build_tag : Z) (arch : string) (st st' : state instance)
    (r : result subtask_result) (new : list call) (path : string) :
  handler E src target build_tag arch st = (r, st') →
  log st' = log st ++ new →
  UploadFile path ∈ new →
  path = path_join (self_workdir (self st)) "build.log" ∧
  basename path = "build.log" ∧
  ∃ build_id json contents calls,
    wait_for_build_to_finish E build_id = Return json ∧
    get_build_logs E build_id = Return contents ∧
    write_file E path contents = Return tt ∧
    new = calls ++ [WaitForBuildToFinish build_id; GetBuildLogs build_id;
                    WriteFile path contents; UploadFile path].
Proof.
  destruct st as [this calls]. intros Hrun Hlog Hin. run_handler.
  all: new_calls Hlog new; find_call Hin.
  all: repeat match goal with u : unit |- _ => destruct u end.
  all: split; [done|]; (split; [by apply basename_path_join|]).
  all: do 3 eexists.
  all: first [eexists [_; _; _; _; _]; by repeat split
             |eexists [_; _; _; _; _; _]; by repeat split].
Qed.

End create.

(** * More on the architecture resolution *)

Lemma words_go_app (cur : option string) (a b : string) :
  String.words_go cur (a +:+ " " +:+ b)
  = String.words_go cur a ++ String.words b.
Proof.
  revert cur. induction a as [|c a IH]; intros cur; [done|].
  rewrite string_app_cons. simpl.
  destruct (Ascii.is_space c); rewrite IH; [|done]. by rewrite app_assoc.
Qed.

Lemma split_app (a b : string) : split (a +:+ " " +:+ b) = split a ++ split b.
Proof. apply words_go_app. Qed.

Section more_arches.
Import BuildContainerTask.
Context (E : Env) (build_tag : Z).

(** X7: without an override in force (no scratch flag, or no override),
    the filter never removes an arch that the tag declares: the call
    returns as soon as the tag declares one token, the resolved arches
    contain every declared token, and any other resolved arch is a token
    of the extra arches that is [noarch] or canonically equal to a declared
    one. *)
Theorem declared_arches_are_resolved (extra : option string)
    (st : state instance) (ev : Z) (bc : buildconfig) (arches : string) :
  self_event_id (self st) = Some ev →
  getBuildConfig E build_tag ev = Return bc →
  bc_arches bc = Some arches →
  scratch (self_opts (self st))
    && truthy (arch_override (self_opts (self st))) = false →
  split arches ≠ [] →
  ∃ l,
    (getArchList E build_tag extra st).1 = Return l ∧
    (∀ a, a ∈ split arches → a ∈ l) ∧
    (∀ a, a ∈ l →
       a ∈ split arches ∨
       (a ∈ split (default EmptyString extra) ∧
        (a = "noarch" ∨ canonArch E a ∈ canonArch E <$> split arches))).
Proof.
  intros Hev Hbc Harches Hover Hdeclared.
  assert (Hne : arches ≠ EmptyString) by (by intros ->).
  rewrite (getArchList_run E build_tag extra st ev bc arches) by done.
  simpl. unfold working_archlist. rewrite Hover.
  assert (Hbase : ∀ a, a ∈ base_archlist arches extra ↔
            a ∈ split arches ∨
            (truthy extra = true ∧ a ∈ split (default EmptyString extra))).
  { intros a. unfold base_archlist. destruct (truthy extra).
    - rewrite split_app, elem_of_app. intuition congruence.
    - intuition congruence. }
  assert (Hkept : ∀ a, a ∈ split arches →
            is_Some (filter_arches E (tag_archlist E arches)
                                   (base_archlist arches extra) !! a)).
  { intros a Ha. apply filter_arches_lookup. split; [apply Hbase; auto|].
    right. by apply list_elem_of_fmap_2. }
  rewrite bool_decide_eq_false_2.
  - eexists. split; [done|]. split.
    + intros a Ha. by apply elem_of_keys, Hkept.
    + intros a [Ha Hpass]%elem_of_keys%filter_arches_lookup.
      apply Hbase in Ha as [Ha|[_ Ha]]; auto.
  - intros Hempty. destruct (split arches) as [|a l] eqn:Hsplit; [done|].
    destruct (Hkept a) as [v Hv]; [apply list_elem_of_here|].
    by rewrite Hempty, lookup_empty in Hv.
Qed.

(** X8: [noarch] needs no declaration: when the working list (the override
    of a scratch build, or the declared and extra arches) has the token
    [noarch], the call returns and [noarch] is among the resolved arches,
    whatever arches the tag declares. *)
Theorem noarch_is_always_kept (extra : option string) (st : state instance)
    (ev : Z) (bc : buildconfig) (arches : string) :
  self_event_id (self st) = Some ev →
  getBuildConfig E build_tag ev = Return bc →
  bc_arches bc = Some arches →
  arches ≠ EmptyString →
  "noarch" ∈ working_archlist (self_opts (self st)) arches extra →
  ∃ l, (getArchList E build_tag extra st).1 = Return l ∧ "noarch" ∈ l.
Proof.
  intros Hev Hbc Harches Hne Hin.
  rewrite (getArchList_run E build_tag extra st ev bc arches) by done.
  simpl.
  assert (is_Some (filter_arches E (tag_archlist E arches)
            (working_archlist (self_opts (self st)) arches extra)
            !! "noarch")) as [v Hv]
    by (apply filter_arches_lookup; auto).
  rewrite bool_decide_eq_false_2.
  - eexists. split; [done|]. apply elem_of_keys. by exists v.
  - intros Hempty. by rewrite Hempty, lookup_empty in Hv.
Qed.

(** X9: the ways [getArchList] fails are four and no more: the task has
    no event yet; the queue service refused the configuration of the tag;
    the tag declares no arches, which no override or extra arch makes up
    for; or no token passes the filter.  In the first case no call is made,
    in the others exactly one. *)
Theorem getArchList_failures (extra : option string)
    (st st' : state instance) (e : exn) :
  getArchList E build_tag extra st = (Raise e, st') →
  (self_event_id (self st) = None ∧ st' = st ∧
   e = AttributeError
         "'BuildContainerTask' object has no attribute 'event_id'") ∨
  (∃ ev,
     self_event_id (self st) = Some ev ∧
     st' = {| self := self st;
              log := log st ++ [GetBuildConfig build_tag ev] |} ∧
     (getBuildConfig E build_tag ev = Raise e ∨
      (∃ bc, getBuildConfig E build_tag ev = Return bc ∧
             (bc_arches bc = None ∨ bc_arches bc = Some EmptyString) ∧
             e = no_arches bc) ∨
      (∃ bc arches,
         getBuildConfig E build_tag ev = Return bc ∧
         bc_arches bc = Some arches ∧
         e = no_matching_arches ∧
         ∀ a, a ∈ working_archlist (self_opts (self st)) arches extra →
              ¬ (a = "noarch" ∨
                 canonArch E a ∈ canonArch E <$> split arches)))).
Proof.
  unfold getArchList, attr. unfold_monad. intros Hrun.
  destruct (self_event_id (self st)) as [ev|] eqn:Hev; simpl in Hrun.
  2: { left. by simplify_eq. }
  right. exists ev. split; [done|].
  destruct (getBuildConfig E build_tag ev) as [bc|e'] eqn:Hbc.
  2: { simplify_eq. auto. }
  destruct (bc_arches bc) as [[|c arches]|] eqn:Harches; simpl in Hrun.
  - simplify_eq. split; [done|]. right; left. exists bc. auto.
  - case_bool_decide as Hempty; simplify_eq. split; [done|].
    right; right. exists bc, (String c arches).
    repeat (split; [done|]). by apply filter_arches_empty.
  - simplify_eq. split; [done|]. right; left. exists bc. auto.
Qed.

End more_arches.

(** * More on the orchestrator *)

Section more_orchestrator.
Import BuildContainerTask.
Context (E : Env).

Lemma dispatch_all (src : string) (target : target_info) (build_tag : Z)
    (arches : list string) (subtasks : gmap string Z) (st : state instance) :
  (∀ arch, arch ∈ arches →
     ∃ t, host_subtask E "createContainer" src target build_tag arch
                       "container" (self_id (self st)) = Return t) →
  ∃ m,
    dispatch E src target build_tag arches subtasks st
    = (Return m,
       {| self := self st;
          log := log st ++
                 (subtask_call src target build_tag (self_id (self st))
                    <$> arches) |}) ∧
    ∀ a t, m !! a = Some t ↔
      (a ∈ arches ∧
       host_subtask E "createContainer" src target build_tag a "container"
                    (self_id (self st)) = Return t) ∨
      ((a ∉ arches) ∧ subtasks !! a = Some t).
Proof.
  revert subtasks st. induction arches as [|arch rest IH]; intros subtasks st.
  - intros _. exists subtasks. simpl. unfold_monad.
    rewrite app_nil_r. split; [by destruct st|].
    intros a t. rewrite elem_of_nil. tauto.
  - intros Hall. simpl. unfold_monad. simpl.
    destruct (Hall arch) as [t Ht]; [apply list_elem_of_here|]. rewrite Ht.
    destruct (IH (<[arch := t]> subtasks)
                 {| self := self st;
                    log := log st ++
                      [Subtask "createContainer" src target build_tag arch
                               "container" (self_id (self st))] |})
      as (m & -> & Hm).
    { intros a Ha. apply Hall. by apply list_elem_of_further. }
    exists m. simpl. split; [by rewrite <-app_assoc|].
    intros a t'. rewrite Hm. simpl. rewrite elem_of_cons.
    destruct (decide (a = arch)) as [->|Hne].
    + rewrite lookup_insert_eq. split.
      * intros [[? ?]|[? [= <-]]]; auto.
      * intros [[[_|?] ?]|[Hnot _]]; auto.
        -- destruct (decide (arch ∈ rest)); auto. right. split; congruence.
        -- destruct Hnot. auto.
    + rewrite lookup_insert_ne by done. split.
      * intros [[? ?]|[? ?]]; auto. right. split; [|done]. intros [?|?]; auto.
      * intros [[[?|?] ?]|[Hnot ?]]; auto; [done|]. right. split; auto.
Qed.

Lemma dispatch_stops (src : string) (target : target_info) (build_tag : Z)
    (before after : list string) (arch : string) (e : exn)
    (subtasks : gmap string Z) (st : state instance) :
  (∀ a, a ∈ before →
     ∃ t, host_subtask E "createContainer" src target build_tag a
                       "container" (self_id (self st)) = Return t) →
  host_subtask E "createContainer" src target build_tag arch "container"
               (self_id (self st)) = Raise e →
  dispatch E src target build_tag (before ++ arch :: after) subtasks st
  = (Raise e,
     {| self := self st;
        log := log st ++
               (subtask_call src target build_tag (self_id (self st))
                  <$> before ++ [arch]) |}).
Proof.
  revert subtasks st. induction before as [|a rest IH]; intros subtasks st.
  - intros _ Hraise. simpl. unfold_monad. simpl. by rewrite Hraise.
  - intros Hall Hraise. simpl. unfold_monad. simpl.
    destruct (Hall a) as [t Ht]; [apply list_elem_of_here|]. rewrite Ht.
    rewrite (IH (<[a := t]> subtasks)); simpl.
    + by rewrite <-app_assoc.
    + intros a' Ha'. apply Hall. by apply list_elem_of_further.
    + done.
Qed.

(** X10: [runBuilds] asks for the subtasks one arch after the other, in the
    order of the arch list, each as a [createContainer] task labelled
    [container] under this task.  When every request is answered, the one
    call that follows is the join, on exactly the identifiers answered;
    when the request for an arch is refused, [runBuilds] raises that
    refusal at once: no later arch is asked for and nothing is joined. *)
Theorem runBuilds_calls (src : string) (target : target_info)
    (build_tag : Z) (st : state instance) :
  let subtask_of := subtask_call src target build_tag (self_id (self st)) in
  let answer arch :=
    host_subtask E "createContainer" src target build_tag arch "container"
                 (self_id (self st)) in
  (∀ arches,
     (∀ arch, arch ∈ arches → ∃ t, answer arch = Return t) →
     ∃ ids,
       runBuilds E src target build_tag arches st
       = (join E ids,
          {| self := self st;
             log := log st ++ (subtask_of <$> arches) ++ [Wait ids] |}) ∧
       ∀ t, t ∈ ids ↔ ∃ arch, arch ∈ arches ∧ answer arch = Return t) ∧
  (∀ before arch after e,
     (∀ a, a ∈ before → ∃ t, answer a = Return t) →
     answer arch = Raise e →
     runBuilds E src target build_tag (before ++ arch :: after) st
     = (Raise e,
        {| self := self st;
           log := log st ++ (subtask_of <$> before ++ [arch]) |})).
Proof.
  intros subtask_of answer. split.
  - intros arches Hall.
    destruct (dispatch_all src target build_tag arches ∅ st Hall)
      as (m & Hrun & Hm).
    exists (values m). unfold runBuilds, wait. unfold_monad. rewrite Hrun.
    simpl. split.
    + rewrite <-app_assoc. by destruct (join E (values m)).
    + intros t. rewrite elem_of_values. split.
      * intros [a [[? ?]|[_ Hempty]]%Hm]; [by exists a|].
        by rewrite lookup_empty in Hempty.
      * intros (a & Ha & Hanswer). exists a. apply Hm. auto.
  - intros before arch after e Hall Hraise.
    unfold runBuilds. unfold_monad.
    by rewrite (dispatch_stops src target build_tag before after arch e).
Qed.

Lemma dispatch_keys (src : string) (target : target_info) (build_tag : Z)
    (arches : list string) (subtasks m : gmap string Z)
    (st st' : state instance) :
  dispatch E src target build_tag arches subtasks st = (Return m, st') →
  ∀ a, a ∈ arches ∨ is_Some (subtasks !! a) → is_Some (m !! a).
Proof.
  revert subtasks st. induction arches as [|arch rest IH]; intros subtasks st.
  - simpl. unfold_monad. intros [= <- <-] a [Ha|Ha]; [|done].
    by apply elem_of_nil in Ha.
  - simpl. unfold_monad. simpl.
    destruct (host_subtask E _ _ _ _ _ _ _) as [t|e]; [|done].
    intros Hrest a Ha. apply (IH _ _ Hrest).
    rewrite lookup_insert_is_Some. rewrite elem_of_cons in Ha.
    destruct (decide (arch = a)) as [->|Hne]; [by right; left|].
    destruct Ha as [[->|Ha]|Ha]; [done|by left|by right; right].
Qed.

Lemma values_nil {K} `{Countable K} {V} (d : gmap K V) :
  values d = [] ↔ d = ∅.
Proof.
  unfold values. split.
  - intros Hnil. apply fmap_nil_inv in Hnil. by apply map_to_list_empty_iff.
  - intros ->. by rewrite map_to_list_empty.
Qed.

Lemma runBuilds_results (src : string) (target : target_info) (build_tag : Z)
    (arches : list string) (st st' : state instance)
    (results : gmap Z subtask_result) :
  arches ≠ [] →
  runBuilds E src target build_tag arches st = (Return results, st') →
  results ≠ ∅.
Proof.
  intros Harches. unfold runBuilds, wait. unfold_monad.
  destruct (dispatch E src target build_tag arches ∅ st) as [[m|e] st1] eqn:Hd;
    [|done].
  destruct (join E (values m)) as [results'|] eqn:Hjoin; [|done].
  intros [= -> <-] ->.
  destruct arches as [|arch rest]; [done|].
  destruct (dispatch_keys _ _ _ _ _ _ _ _ Hd arch) as [t Ht];
    [left; apply list_elem_of_here|].
  destruct (join_returns E _ _ Hjoin t) as [Hdom _].
  assert (t ∈ values m) as [v Hv]%Hdom by (apply elem_of_values; eauto).
  by rewrite lookup_empty in Hv.
Qed.

Lemma handler_resolve_arches (target : string) (st st' : state instance)
    (resolved : target_info * list string) :
  handler_resolve E target st = (Return resolved, st') →
  resolved.2 ≠ [] ∧ NoDup resolved.2.
Proof.
  unfold handler_resolve. unfold_monad. simpl.
  destruct (getLastEvent E) as [ev|]; [|done]. simpl.
  destruct (getBuildTarget E target ev) as [[ti|]|]; [|done|done]. simpl.
  destruct (getArchList E (ti_build_tag ti) None _)
    as [[archlist|] st1] eqn:Harch; [|done].
  intros [= <- <-]. simpl.
  apply getArchList_returns in Harch
    as (? & ? & ? & _ & _ & _ & _ & Hne & -> & _).
  split; [by rewrite keys_nil|apply NoDup_keys].
Qed.

(** X11: [buildContainer] never returns: every run of the handler ends in
    an exception.  A build without the scratch flag is refused, and a
    scratch build that gets as far as the verification of its results
    stops at the first of them, on the [osbs] that the task does not have
    or on a result without [osbs_build_id]. *)
Theorem buildContainer_never_returns (src target : string)
    (opts : option Opts) (st : state instance) :
  ∃ e, (handler E src target opts st).1 = Raise e.
Proof.
  rewrite handler_run. simpl.
  destruct (handler_resolve E target _) as [[resolved|e] st1] eqn:Hres;
    [|by eexists].
  apply handler_resolve_arches in Hres as [Harches _].
  destruct (scratch (default no_opts opts)) eqn:Hscratch; [|by eexists].
  destruct (handler_try E src target _ _ _ _ st1) as [r st2] eqn:Htry.
  pose proof verification_run as Hverify.
  simpl. revert Htry. unfold handler_try. unfold_monad. simpl.
  destruct (is_scm_url E src); simpl; [|intros [= <- _]; by eexists].
  destruct (runBuilds E src resolved.1 (ti_build_tag resolved.1) resolved.2 _)
    as [[results|e] st3] eqn:Hrun; [|intros [= <- _]; by eexists].
  apply runBuilds_results in Hrun; [|done]. rewrite Hscratch.
  destruct (host_moveContainerToScratch E _ _);
    [rewrite Hverify|]; intros [= <- _]; [|by eexists].
  destruct (values results) as [|r l] eqn:Hvalues.
  - by apply values_nil in Hvalues.
  - destruct (r !! "osbs_build_id"); by eexists.
Qed.

(** X12: the calls of a run of [buildContainer] come in one order: first
    the read-only queries, then the requests for subtasks, then at most
    one join, then at most one [moveContainerToScratch], for this task and
    only for a scratch build.  The handler makes no other call: it never
    fetches the status of an external build, never completes or fails a
    build record. *)
Theorem buildContainer_call_protocol (src target : string)
    (opts : option Opts) (st : state instance) :
  ∃ lookups subs tail,
    log (handler E src target opts st).2 = log st ++ lookups ++ subs ++ tail ∧
    Forall (λ c, is_lookup c = true) lookups ∧
    Forall (λ c, is_subtask c = true) subs ∧
    (tail = [] ∨
     ∃ ids, tail = [Wait ids] ∨
            ∃ results,
              tail = [Wait ids;
                      MoveContainerToScratch (self_id (self st)) results] ∧
              scratch (default no_opts opts) = true).
Proof.
  rewrite handler_run. simpl.
  destruct (handler_resolve E target _) as [[resolved|e] st1] eqn:Hres;
    apply handler_resolve_spec in Hres as (_ & Hid & lookups & Hlog & Hlook);
    simpl in *.
  2: { exists lookups, [], []. rewrite !app_nil_r. auto. }
  destruct (scratch (default no_opts opts)) eqn:Hscratch.
  2: { exists lookups, [], []. simpl. rewrite !app_nil_r. auto. }
  destruct (handler_try E src target _ _ _ _ st1) as [r st2] eqn:Htry.
  apply handler_try_spec in Htry
    as (_ & _ & subs & Hsubs &
        [(e1 & -> & Hlog2)|[(ids & e1 & Hlog2 & _ & _ & ->)
                           |(ids & results & _ & _ & Hlog2)]]);
    simpl in *.
  - exists lookups, subs, [].
    split; [by rewrite Hlog2, Hlog, app_nil_r, <-app_assoc|]. auto.
  - exists lookups, subs, [Wait ids].
    split; [by rewrite Hlog2, Hlog, <-!app_assoc|]. eauto 6.
  - rewrite Hscratch in Hlog2. eexists lookups, subs, [Wait ids; _].
    split; [by rewrite Hlog2, Hlog, Hid, <-!app_assoc|]. eauto 10.
Qed.

(** X13: the queries of lines 201-204 share one event: the target and the
    configuration of its build tag are asked for at the event that
    [getLastEvent] answered, which is also the event the task keeps, and
    the tag whose configuration is asked for is the build tag of the
    target that [getBuildTarget] answered. *)
Theorem lookups_share_one_event (target : string) (st st' : state instance)
    (r : result (target_info * list string)) :
  handler_resolve E target st = (r, st') →
  ∃ new,
    log st' = log st ++ new ∧
    ∀ c, c ∈ new →
      c = GetLastEvent ∨
      ∃ ev,
        getLastEvent E = Return ev ∧
        self_event_id (self st') = Some ev ∧
        (c = GetBuildTarget target ev ∨
         ∃ target_info,
           getBuildTarget E target ev = Return (Some target_info) ∧
           c = GetBuildConfig (ti_build_tag target_info) ev).
Proof.
  unfold handler_resolve, getArchList, attr. unfold_monad. simpl.
  intros Hrun.
  repeat (case_match; simplify_eq/=); eexists;
    (split; [by rewrite <-?app_assoc|]); intros c Hc;
    repeat (apply elem_of_cons in Hc as [->|Hc]; [eauto 10|]);
    by apply elem_of_nil in Hc.
Qed.

(** X14: a target that the queue service does not know ends the handler in
    a [TypeError], with or without the scratch flag, after two calls and
    before any arch is resolved. *)
Theorem unknown_target (src target : string) (opts : option Opts)
    (st : state instance) (ev : Z) :
  getLastEvent E = Return ev →
  getBuildTarget E target ev = Return None →
  handler E src target opts st
  = (Raise (TypeError "'NoneType' object has no attribute '__getitem__'"),
     {| self := set_event_id ev (set_opts (default no_opts opts) (self st));
        log := log st ++ [GetLastEvent; GetBuildTarget target ev] |}).
Proof.
  intros Hev Htarget. rewrite handler_run. unfold handler_resolve.
  unfold_monad. simpl. rewrite Hev. simpl. rewrite Htarget. simpl.
  by rewrite <-app_assoc.
Qed.

(** X15: a scratch build whose source is not an SCM URL ends in the
    [BuildError] "Invalid source specification" as soon as its arches are
    resolved: no subtask is requested, and the only trace is the
    [extra_information] that the task keeps. *)
Theorem invalid_source (src target : string) (opts : option Opts)
    (st st1 : state instance) (resolved : target_info * list string) :
  scratch (default no_opts opts) = true →
  is_scm_url E src = false →
  handler_resolve E target
    {| self := set_opts (default no_opts opts) (self st); log := log st |}
    = (Return resolved, st1) →
  handler E src target opts st
  = (Raise (BuildError ("Invalid source specification: " +:+ src)),
     {| self := set_extra_information (src, self_id (self st), target)
                                      (self st1);
        log := log st1 |}).
Proof.
  intros Hscratch Hsrc Hres. rewrite handler_run. simpl.
  rewrite Hres, Hscratch.
  apply handler_resolve_spec in Hres as (_ & Hid & _). simpl in Hid.
  unfold handler_try. unfold_monad. simpl. by rewrite Hsrc, Hid.
Qed.

(** X16: the re-keying of lines 233-236 loses nothing: the result of the
    subtask [t] is found under the text of [t], and the mapping handed to
    the finalization has as many entries as the join answered. *)
Theorem results_xmlrpc_keeps_results (results : gmap Z subtask_result) :
  (∀ t, results_xmlrpc results !! str t = results !! t) ∧
  size (results_xmlrpc results) = size results.
Proof.
  assert (Hkmap : results_xmlrpc results = kmap str results).
  { apply map_eq. intros k. apply option_eq. intros r.
    rewrite results_xmlrpc_lookup, lookup_kmap_Some by apply _. done. }
  split.
  - intros t. by rewrite Hkmap, lookup_kmap by apply _.
  - rewrite Hkmap, <-!length_map_to_list.
    by rewrite map_to_list_kmap, length_fmap by apply _.
Qed.

End more_orchestrator.

Section finalization.
Import BuildContainerTask.
Context (E : Env).

Lemma lookup_is_no_finalization (l : list call) (task : Z)
    (m : gmap string subtask_result) :
  Forall (λ c, is_lookup c = true) l → MoveContainerToScratch task m ∉ l.
Proof. rewrite Forall_forall. intros Hall Hin. by apply Hall in Hin. Qed.

Lemma subtask_is_no_finalization (l : list call) (task : Z)
    (m : gmap string subtask_result) :
  Forall (λ c, is_subtask c = true) l → MoveContainerToScratch task m ∉ l.
Proof. rewrite Forall_forall. intros Hall Hin. by apply Hall in Hin. Qed.

(** X17: what a run hands to [moveContainerToScratch], when it does: the
    identifier of this task, and a mapping whose entries are exactly the
    results of the subtasks joined on, each under the text of its subtask's
    identifier (with the join of the queue service answering the result of
    every subtask once all have ended). *)
Theorem finalization_mapping (src target : string) (opts : option Opts)
    (st : state instance) (new : list call) (task : Z)
    (m : gmap string subtask_result) :
  log (handler E src target opts st).2 = log st ++ new →
  MoveContainerToScratch task m ∈ new →
  task = self_id (self st) ∧
  ∃ ids,
    Wait ids ∈ new ∧
    ∀ k r, m !! k = Some r ↔
           ∃ t, k = str t ∧ t ∈ ids ∧ task_outcome E t = Return r.
Proof.
  rewrite handler_run. simpl. intros Hlog Hin.
  destruct (handler_resolve E target _) as [[resolved|e0] st1] eqn:Hres;
    apply handler_resolve_spec in Hres as (_ & Hid & lookups & Hlog1 & Hlook);
    simpl in *.
  2: { rewrite Hlog1 in Hlog. apply app_inv_head in Hlog as <-.
       by apply lookup_is_no_finalization in Hin. }
  destruct (scratch (default no_opts opts)) eqn:Hscratch.
  2: { simpl in Hlog. rewrite Hlog1 in Hlog. apply app_inv_head in Hlog as <-.
       by apply lookup_is_no_finalization in Hin. }
  destruct (handler_try E src target _ _ _ _ st1) as [r st2] eqn:Htry.
  apply handler_try_spec in Htry
    as (_ & _ & subs & Hsubs &
        [(e1 & -> & Hlog2)|[(ids & e1 & Hlog2 & _ & _ & ->)
                           |(ids & results & _ & Hjoin & Hlog2)]]);
    simpl in *.
  - rewrite Hlog2, Hlog1, <-app_assoc in Hlog.
    apply app_inv_head in Hlog as <-.
    apply elem_of_app in Hin as [Hin|Hin].
    + by apply lookup_is_no_finalization in Hin.
    + by apply subtask_is_no_finalization in Hin.
  - rewrite Hlog2, Hlog1, <-app_assoc in Hlog.
    apply app_inv_head in Hlog as <-.
    rewrite !elem_of_app, list_elem_of_singleton in Hin.
    destruct Hin as [Hin|[Hin|Hin]]; [| |done].
    + by apply lookup_is_no_finalization in Hin.
    + by apply subtask_is_no_finalization in Hin.
  - rewrite Hscratch, Hlog1, <-app_assoc in Hlog2. rewrite Hlog2 in Hlog.
    apply app_inv_head in Hlog as <-.
    rewrite !elem_of_app, !elem_of_cons, elem_of_nil in Hin.
    destruct Hin as [Hin|[Hin|[Hin|[Hin|[]]]]]; [| |done|].
    + by apply lookup_is_no_finalization in Hin.
    + by apply subtask_is_no_finalization in Hin.
    + simplify_eq. split; [done|]. exists ids. split.
      * rewrite !elem_of_app, elem_of_cons. auto.
      * intros k res. rewrite results_xmlrpc_lookup.
        split; intros (t & -> & Ht); exists t; (split; [done|]).
        -- destruct (join_returns E _ _ Hjoin t) as [Hdom Hout].
           split; [apply Hdom; eauto|by apply Hout].
        -- destruct Ht as [Ht Hr].
           destruct (join_returns E _ _ Hjoin t) as [Hdom Hout].
           apply Hdom in Ht as [r' Hr']. rewrite Hr'.
           apply Hout in Hr'. congruence.
Qed.

End finalization.

(** * The build record *)

Section build_record.
Import BuildRecord.
Context (S : Session).

(** X18: unless the build is a scratch build or skips the tag, a package
    that is not on the list of the destination tag, or is blocked there,
    gets no build record: [initContainerBuild] ends in a [BuildError] that
    names the package and the tag, after the one query of the package
    list. *)
Theorem unlisted_package_gets_no_record (name version release : string)
    (target : target_info) (opts : build_opts) (st : state)
    (answer : option package_config) :
  skip_tag opts = false →
  scratch (request opts) = false →
  getPackageConfig S (ti_dest_tag_name target) name = Return answer →
  answer = None ∨ answer = Some {| blocked := true |} →
  initContainerBuild S name version release target opts st
  = (Raise (match answer with
            | None => not_listed name (ti_dest_tag_name target)
            | Some _ => is_blocked name (ti_dest_tag_name target)
            end),
     {| self_id := self_id st;
        log := log st ++ [GetPackageConfig (ti_dest_tag_name target) name] |}).
Proof.
  intros Hskip Hscratch Hcfg Hanswer.
  unfold initContainerBuild, call_session. unfold_monad. simpl.
  rewrite Hcfg, Hskip, Hscratch. simpl. by destruct Hanswer as [->| ->].
Qed.

(** X19: whatever the run, a build record is asked for only after the
    package list has answered, for this task, the name, version and
    release given and the epoch 0, as the last call; and either the build
    is a scratch build or skips the tag, or the package is on the list and
    not blocked. *)
Theorem record_needs_listed_package (name version release : string)
    (target : target_info) (opts : build_opts) (st : state)
    (task : Z) (name' version' release' : string) (epoch : Z)
    (new : list call) :
  log (initContainerBuild S name version release target opts st).2
    = log st ++ new →
  InitContainerBuild task name' version' release' epoch ∈ new →
  new = [GetPackageConfig (ti_dest_tag_name target) name;
         InitContainerBuild (self_id st) name version release 0] ∧
  (task, name', version', release', epoch)
    = (self_id st, name, version, release, 0) ∧
  (initContainerBuild S name version release target opts st).1
    = host_initContainerBuild S (self_id st) name version release 0 ∧
  (skip_tag opts = true ∨ scratch (request opts) = true ∨
   getPackageConfig S (ti_dest_tag_name target) name
     = Return (Some {| blocked := false |})).
Proof.
  unfold initContainerBuild, call_session. unfold_monad. simpl.
  intros Hlog Hin.
  destruct (getPackageConfig S (ti_dest_tag_name target) name)
    as [[[[]]|]|e] eqn:Hcfg;
    destruct (skip_tag opts), (scratch (request opts)); simpl in *;
    rewrite <-?app_assoc in Hlog; apply app_inv_head in Hlog; subst new;
    repeat (apply elem_of_cons in Hin as [Hin|Hin]; [simplify_eq|]);
    try (by apply elem_of_nil in Hin);
    repeat split; auto.
Qed.

End build_record.

(** * The expected output of the tests *)

Section expected_output.
Import TestHelpers.

(** Induction on a task result, through its lists and dictionaries. *)
Lemma json_induction (P : json → Prop) :
  (∀ items, Forall P items → P (JList items)) →
  (∀ items, Forall (λ kv, P kv.2) items → P (JDict items)) →
  (∀ v, P (JScalar v)) →
  ∀ result, P result.
Proof.
  intros Hlist Hdict Hscalar. fix IH 1. intros [items|items|v].
  - apply Hlist. induction items as [|item items IHitems]; constructor.
    + apply IH.
    + exact IHitems.
  - apply Hdict. induction items as [|[key item] items IHitems]; constructor.
    + apply IH.
    + exact IHitems.
  - apply Hscalar.
Qed.

(** X20: every line that [_expected_output] yields starts with the offset
    it was given and ends with a line feed, however deep the item lies in
    the result. *)
Theorem expected_lines_are_indented (result : json)
    (offset indent line : string) :
  line ∈ _expected_output result offset indent →
  ∃ body, line = offset +:+ body +:+ newline.
Proof.
  revert offset line.
  induction result as [items IH|items IH|v] using json_induction;
    intros offset line; simpl.
  - rewrite list_elem_of_In, in_flat_map.
    intros (item & Hitem%list_elem_of_In & Hline%list_elem_of_In).
    rewrite Forall_forall in IH.
    destruct (IH item Hitem _ _ Hline) as [body ->].
    exists (indent +:+ body). by rewrite !string_app_assoc.
  - rewrite list_elem_of_In, in_flat_map.
    intros (kv & Hkv%list_elem_of_In & Hline%list_elem_of_In).
    apply elem_of_cons in Hline as [->|Hline].
    { exists (kv.1 +:+ ":"). by rewrite !string_app_assoc. }
    rewrite Forall_forall in IH.
    destruct (IH kv Hkv _ _ Hline) as [body ->].
    exists (indent +:+ body). by rewrite !string_app_assoc.
  - intros ->%list_elem_of_singleton. by eexists.
Qed.

(** X21: [_expected_output] yields one line for every dictionary key and
    one for every scalar of the result, whatever the offset and the indent:
    a list adds no line of its own, and an empty list or dictionary leaves
    no line at all. *)
Theorem expected_lines_count (result : json) (offset indent : string) :
  length (_expected_output result offset indent) = entries result.
Proof.
  revert offset.
  induction result as [items IH|items IH|v] using json_induction;
    intros offset; simpl; [| |done].
  - induction IH as [|item items Hitem _ IHitems]; [done|]. simpl.
    by rewrite length_app, Hitem, IHitems.
  - induction IH as [|kv items Hkv _ IHitems]; [done|]. simpl.
    by rewrite length_app, Hkv, IHitems.
Qed.

End expected_output.

(** * The further properties on the scenarios *)

Section more_scenarios.
Import Example MoreExamples.

(** Task 101 builds its client on the first request and answers it from
    then on. *)
Lemma osbs_is_cached_witness :
  (run CreateContainerTask.osbs E_ok in CreateContainerTask.osbs E_ok)
    start_create
  = CreateContainerTask.osbs E_ok start_create ∧
  CreateContainerTask.osbs E_ok
    (CreateContainerTask.osbs E_ok start_create).2
  = (Return OSBS_client, (CreateContainerTask.osbs E_ok start_create).2).
Proof.
  split.
  - apply (osbs_is_cached E_ok start_create).
  - by apply (osbs_is_cached E_ok).
Defined.

(** The run of task 101 for [x86_64], whole. *)
Lemma createContainer_calls_witness :
  log (CreateContainerTask.handler E_ok git_src t1 10 "x86_64"
                                   start_create).2
  = [GetTaskInfo 101; GetUser 42; NewSCM git_src;
     AssertAllowed "/containers/foo.git" "example.com:/*"; NewOSBS;
     CreateBuild "git://example.com/containers/foo.git" "master" "alice"
                 "foo" "t1" "x86_64";
     WaitForBuildToFinish "foo-x86_64-1"; GetBuildLogs "foo-x86_64-1";
     WriteFile "/tmp/koji/tasks/101/build.log" "Step 1 : FROM fedora";
     UploadFile "/tmp/koji/tasks/101/build.log"].
Proof.
  destruct (createContainer_calls E_ok git_src t1 10 "x86_64" start_create
              (CreateContainerTask.handler E_ok git_src t1 10 "x86_64"
                                           start_create).2
              (imgdata 101 "foo-x86_64-1"))
    as (owner & user & scm & build_id & contents
        & Howner & Huser & Hscm & Hlogs & Hid & Hlog);
    [vm_compute; reflexivity|].
  rewrite Hlog. clear Hlog.
  assert (owner = 42) as -> by (vm_compute in Howner; congruence).
  assert (user = "alice") as -> by (vm_compute in Huser; congruence).
  assert (build_id = "foo-x86_64-1") as ->
    by (vm_compute in Hid; congruence).
  assert (contents = "Step 1 : FROM fedora") as ->
    by (vm_compute in Hlogs; congruence).
  assert (scm = {| scm_scheme := "git://"; scm_host := "example.com";
                   scm_repository := "/containers/foo.git";
                   scm_revision := "master" |}) as ->
    by (vm_compute in Hscm; congruence).
  vm_compute. reflexivity.
Defined.

Lemma build_is_submitted_after_validation_witness :
  ∃ owner scm,
    getTaskInfo E_ok 101 = Return owner ∧
    getUser E_ok owner = Return "alice" ∧
    new_SCM E_ok git_src = Return scm ∧
    assert_allowed E_ok scm "example.com:/*" = Return tt ∧
    "master" = scm_revision scm.
Proof.
  destruct (build_is_submitted_after_validation E_ok git_src t1 10 "x86_64"
              start_create
              (CreateContainerTask.handler E_ok git_src t1 10 "x86_64"
                                           start_create).2
              (CreateContainerTask.handler E_ok git_src t1 10 "x86_64"
                                           start_create).1
              (log (CreateContainerTask.handler E_ok git_src t1 10 "x86_64"
                                                start_create).2)
              "git://example.com/containers/foo.git" "master" "alice"
              "foo" "t1" "x86_64")
    as (owner & scm & Howner & Huser & Hscm & Hallowed & _ & Href & _).
  - apply surjective_pairing.
  - reflexivity.
  - apply list_elem_of_In. vm_compute. do 5 right. left. reflexivity.
  - by exists owner, scm.
Defined.

Lemma upload_follows_download_witness :
  basename "/tmp/koji/tasks/101/build.log" = "build.log" ∧
  ∃ build_id json contents,
    wait_for_build_to_finish E_ok build_id = Return json ∧
    get_build_logs E_ok build_id = Return contents ∧
    write_file E_ok "/tmp/koji/tasks/101/build.log" contents = Return tt.
Proof.
  destruct (upload_follows_download E_ok git_src t1 10 "x86_64"
              start_create
              (CreateContainerTask.handler E_ok git_src t1 10 "x86_64"
                                           start_create).2
              (CreateContainerTask.handler E_ok git_src t1 10 "x86_64"
                                           start_create).1
              (log (CreateContainerTask.handler E_ok git_src t1 10 "x86_64"
                                                start_create).2)
              "/tmp/koji/tasks/101/build.log")
    as (_ & Hbase & build_id & json & contents & calls & Hwait & Hlogs
        & Hwrite & _).
  - apply surjective_pairing.
  - reflexivity.
  - apply list_elem_of_In. vm_compute. do 9 right. left. reflexivity.
  - split; [exact Hbase|]. by exists build_id, json, contents.
Defined.

(** Tag [x86_64 ppc64le] with the extra arches [i686 s390x]: both declared
    arches are resolved. *)
Lemma declared_arches_are_resolved_witness :
  ∃ l,
    (BuildContainerTask.getArchList E_ok 10 (Some "i686 s390x")
       (resolving no_opts)).1 = Return l ∧
    "x86_64" ∈ l ∧ "ppc64le" ∈ l.
Proof.
  destruct (declared_arches_are_resolved E_ok 10 (Some "i686 s390x")
              (resolving no_opts) 7 x86_ppc "x86_64 ppc64le")
    as (l & Hl & Hdeclared & _); try reflexivity.
  - intros Hnil. vm_compute in Hnil. discriminate Hnil.
  - exists l. split; [exact Hl|].
    split; apply Hdeclared; apply (bool_decide_unpack _); vm_compute;
      exact I.
Defined.

(** The scratch override [noarch s390x] on the same tag resolves to
    [noarch]. *)
Lemma noarch_is_always_kept_witness :
  ∃ l,
    (BuildContainerTask.getArchList E_ok 10 None
       (resolving (scratch_build (Some "noarch s390x")))).1 = Return l ∧
    "noarch" ∈ l.
Proof.
  apply (noarch_is_always_kept E_ok 10 None
           (resolving (scratch_build (Some "noarch s390x"))) 7 x86_ppc
           "x86_64 ppc64le"); try reflexivity.
  - discriminate.
  - apply (bool_decide_unpack _). vm_compute. exact I.
Defined.

(** A scratch override does not make up for a tag without arches. *)
Lemma getArchList_failures_witness :
  BuildContainerTask.getArchList E_no_arches 10 None
    (resolving (scratch_build (Some "x86_64")))
  = (Raise (BuildError "No arches for tag t1-build [10]"),
     {| self := self (resolving (scratch_build (Some "x86_64")));
        log := [GetBuildConfig 10 7] |}) ∧
  ∃ ev, BuildContainerTask.self_event_id
          (self (resolving (scratch_build (Some "x86_64")))) = Some ev.
Proof.
  assert (Hrun :
    BuildContainerTask.getArchList E_no_arches 10 None
      (resolving (scratch_build (Some "x86_64")))
    = (Raise (BuildError "No arches for tag t1-build [10]"),
       {| self := self (resolving (scratch_build (Some "x86_64")));
          log := [GetBuildConfig 10 7] |}))
    by (vm_compute; reflexivity).
  split; [exact Hrun|].
  destruct (getArchList_failures E_no_arches 10 None _ _ _ Hrun)
    as [(Hnone & _)|(ev & Hev & _)]; [discriminate Hnone|].
  by exists ev.
Defined.

(** Both subtasks of [t1] are asked for, then joined on; and when the
    queue service shuts down, the first request is the last call. *)
Lemma runBuilds_calls_witness :
  (∃ ids,
     BuildContainerTask.runBuilds E_ok git_src t1 10 ["x86_64"; "ppc64le"]
                                  start
     = (join E_ok ids,
        {| self := self start;
           log := [t1_subtask "x86_64"; t1_subtask "ppc64le"; Wait ids] |}))
  ∧ BuildContainerTask.runBuilds E_exit git_src t1 10 ["x86_64"; "ppc64le"]
                                 start
    = (Raise ServerExit,
       {| self := self start; log := [t1_subtask "x86_64"] |}).
Proof.
  destruct (runBuilds_calls E_ok git_src t1 10 start) as [Hall _].
  destruct (runBuilds_calls E_exit git_src t1 10 start) as [_ Hstop].
  split.
  - destruct (Hall ["x86_64"; "ppc64le"]) as (ids & Hrun & _).
    + intros arch _. by eexists.
    + exists ids. exact Hrun.
  - apply (Hstop [] "x86_64" ["ppc64le"] ServerExit); [|reflexivity].
    intros a Ha. by apply elem_of_nil in Ha.
Defined.

(** The queries for [t1] are made at event 7. *)
Lemma lookups_share_one_event_witness :
  ∃ new,
    log (BuildContainerTask.handler_resolve E_ok "t1" start).2 = new ∧
    GetBuildConfig 10 7 ∈ new ∧
    getLastEvent E_ok = Return 7.
Proof.
  destruct (lookups_share_one_event E_ok "t1" start
              (BuildContainerTask.handler_resolve E_ok "t1" start).2
              (BuildContainerTask.handler_resolve E_ok "t1" start).1)
    as (new & Hlog & Hcalls); [apply surjective_pairing|].
  change (log start ++ new) with new in Hlog.
  exists new. split; [exact Hlog|].
  assert (Hnew : new = [GetLastEvent; GetBuildTarget "t1" 7;
                        GetBuildConfig 10 7])
    by (rewrite <-Hlog; vm_compute; reflexivity).
  split; [|reflexivity].
  rewrite Hnew. do 2 apply list_elem_of_further. apply list_elem_of_here.
Defined.

(** The target [t2] is not known. *)
Lemma unknown_target_witness :
  (BuildContainerTask.handler E_ok git_src "t2" (scratch_opts None) start).1
  = Raise (TypeError "'NoneType' object has no attribute '__getitem__'") ∧
  log (BuildContainerTask.handler E_ok git_src "t2" (scratch_opts None)
                                  start).2
  = [GetLastEvent; GetBuildTarget "t2" 7].
Proof.
  rewrite (unknown_target E_ok git_src "t2" (scratch_opts None) start 7);
    [by split|reflexivity|reflexivity].
Defined.

(** A scratch build of [t1] from a source that is no SCM URL. *)
Lemma invalid_source_witness :
  (BuildContainerTask.handler E_ok "foo.tar.gz" "t1" (scratch_opts None)
                              start).1
  = Raise (BuildError "Invalid source specification: foo.tar.gz") ∧
  log (BuildContainerTask.handler E_ok "foo.tar.gz" "t1" (scratch_opts None)
                                  start).2
  = t1_lookups.
Proof.
  rewrite (invalid_source E_ok "foo.tar.gz" "t1" (scratch_opts None) start
             {| self := {| BuildContainerTask.self_id := 1;
                           BuildContainerTask.self_opts := scratch_build None;
                           BuildContainerTask.self_event_id := Some 7;
                           BuildContainerTask.self_extra_information := None
                        |};
                log := t1_lookups |}
             (t1, ["x86_64"; "ppc64le"])).
  - by split.
  - reflexivity.
  - reflexivity.
  - vm_compute. reflexivity.
Defined.

(** The scratch build of the tag [x86_64]: the one entry of the mapping is
    the result of subtask 101. *)
Lemma finalization_mapping_witness :
  ∃ ids,
    Wait ids
      ∈ t1_lookups ++
        [t1_subtask "x86_64"; Wait [101];
         MoveContainerToScratch 1 {["101" := imgdata 101 "build-101"]}] ∧
    ∀ k r,
      ({["101" := imgdata 101 "build-101"]} : gmap string subtask_result)
        !! k = Some r
      ↔ ∃ t, k = str t ∧ t ∈ ids ∧ task_outcome E_one t = Return r.
Proof.
  destruct (finalization_mapping E_one git_src "t1" (scratch_opts None)
              start
              (t1_lookups ++
               [t1_subtask "x86_64"; Wait [101];
                MoveContainerToScratch 1
                  {["101" := imgdata 101 "build-101"]}])
              1 {["101" := imgdata 101 "build-101"]})
    as (_ & ids & Hwait & Hm).
  - vm_compute. reflexivity.
  - do 5 apply list_elem_of_further. apply list_elem_of_here.
  - by exists ids.
Defined.

(** The blocked package [bar] and the unknown package [baz] get no build
    record. *)
Lemma unlisted_package_gets_no_record_witness :
  BuildRecord.initContainerBuild session "bar" "1.0" "2" t1 persistent
                                 record_start
  = (Raise (BuildRecord.is_blocked "bar" "t1-dest"),
     {| BuildRecord.self_id := 1;
        BuildRecord.log := [BuildRecord.GetPackageConfig "t1-dest" "bar"] |})
  ∧ BuildRecord.initContainerBuild session "baz" "1.0" "2" t1 persistent
                                   record_start
    = (Raise (BuildRecord.not_listed "baz" "t1-dest"),
       {| BuildRecord.self_id := 1;
          BuildRecord.log :=
            [BuildRecord.GetPackageConfig "t1-dest" "baz"] |}).
Proof.
  split.
  - apply (unlisted_package_gets_no_record session "bar" "1.0" "2" t1
             persistent record_start
             (Some {| BuildRecord.blocked := true |}));
      try reflexivity. by right.
  - apply (unlisted_package_gets_no_record session "baz" "1.0" "2" t1
             persistent record_start None);
      try reflexivity. by left.
Defined.

(** The listed package [foo] gets its record, with epoch 0. *)
Lemma record_needs_listed_package_witness :
  (BuildRecord.initContainerBuild session "foo" "1.0" "2" t1 persistent
                                  record_start).1
  = Return 500 ∧
  BuildRecord.getPackageConfig session "t1-dest" "foo"
  = Return (Some {| BuildRecord.blocked := false |}).
Proof.
  destruct (record_needs_listed_package session "foo" "1.0" "2" t1
              persistent record_start 1 "foo" "1.0" "2" 0
              [BuildRecord.GetPackageConfig "t1-dest" "foo";
               BuildRecord.InitContainerBuild 1 "foo" "1.0" "2" 0])
    as (_ & _ & Hresult & Hwhy).
  - reflexivity.
  - apply list_elem_of_further, list_elem_of_here.
  - split; [exact Hresult|reflexivity].
Defined.

(** A line of the expected output of a result, two levels deep. *)
Lemma expected_lines_are_indented_witness :
  ∃ body,
    "      r/foo:1" +:+ TestHelpers.newline
    = EmptyString +:+ body +:+ TestHelpers.newline.
Proof.
  apply (expected_lines_are_indented build_result EmptyString "  ").
  apply list_elem_of_In. vm_compute. do 4 right. left. reflexivity.
Defined.

End more_scenarios.
